(** * Routing composables of the bridge: a shallow embedding

    Source: [packages/bridge/src/runtime/composables/router.ts].

    The module is glue between two generations of a router API.  Its
    functions read and write a few fields of the application object,
    call into the router, the window and the HTTP layer, and raise
    exceptions.  The embedding therefore is a small monad with

    - a state, [World]: the application object and what the current
      execution context can reach,
    - exceptions, [Throw], for JavaScript's [throw] (and a rejected
      promise of an [async] function),
    - an append-only log of [Event]s, one per call that leaves the module
      (window, location, router, hooks, the legacy context callbacks).

    [await] is modelled by running the awaited computation to completion:
    the host runs the middleware of one navigation one after the other. *)

From stdpp Require Import gmap strings list.
From Stdlib Require Import ZArith Lia.

Local Open Scope Z_scope.

(** ** Values *)

Definition Query := list (string * string).

(** [Location] of vue-router: every field is optional. A [Route] is used
    at the same places and has them all. *)
Record Location := mkLocation {
  loc_path : option string;
  loc_query : option Query;
  loc_hash : option string
}.

Record Route := mkRoute {
  path : string;
  query : Query;
  hash : string;
  fullPath : string
}.

(** [RawLocation = string | Location]. *)
Inductive RawLocation :=
| LocString (s : string)
| LocObject (l : Location).

Record NuxtError := mkNuxtError {
  message : string;
  statusCode : Z;
  fatal : bool
}.

(** The argument of [abortNavigation]: [string | Partial<NuxtError>]. *)
Record PartialNuxtError := mkPartialNuxtError {
  p_message : option string;
  p_statusCode : option Z;
  p_fatal : option bool
}.

Inductive ErrInput :=
| ErrString (s : string)
| ErrObject (p : PartialNuxtError).

(** Instances of [Error]: the plain ones made by [new Error(msg)] and the
    ones made by [createError]. *)
Inductive JsError :=
| PlainError (msg : string)
| NuxtErr (e : NuxtError).

(** What a route middleware may return ([RouteMiddlewareReturn]), and what
    the legacy callbacks give back. Numbers are the integral ones. *)
Inductive JsValue :=
| VUndefined
| VNull
| VBool (b : bool)
| VNumber (n : Z)
| VString (s : string)
| VError (e : JsError)
| VLocation (l : Location)
| VRoute (r : Route).

(** [result instanceof Error] *)
Definition instanceof_Error (v : JsValue) : bool :=
  match v with VError _ => true | _ => false end.

(** JavaScript's ToBoolean. *)
Definition truthy (v : JsValue) : bool :=
  match v with
  | VUndefined | VNull => false
  | VBool b => b
  | VNumber n => negb (n =? 0)
  | VString s => negb (String.eqb s "")
  | VError _ | VLocation _ | VRoute _ => true
  end.

Definition truthy_string (s : string) : bool := negb (String.eqb s "").

(** [x || d] on an optional string. *)
Definition or_string (x : option string) (d : string) : string :=
  match x with
  | Some s => if truthy_string s then s else d
  | None => d
  end.

(** An optional boolean field used as a condition. *)
Definition truthy_flag (x : option bool) : bool :=
  match x with Some true => true | _ => false end.

(** ** The application object and the world around it *)

(** Function values are references into the program's middleware
    ([middleware_of] below gives their bodies). The closure that
    [convertToLegacyMiddleware(m)] returns is the value [FnLegacy m]: it
    captures the value it was given, which is [undefined] when the optional
    parameter was left out. *)
Inductive FnValue :=
| FnUndefined
| FnMiddleware (ref : nat)
| FnLegacy (captured : FnValue).

Record Router := mkRouter { router_id : nat }.

Record H3Event := mkH3Event { event_id : nat }.

Record SsrContext := mkSsrContext { event : option H3Event }.

(** The hook that [useRoute] installs with [router.afterEach]. *)
Inductive RouterHook :=
| AssignToMirror.

Record NuxtApp := mkNuxtApp {
  _processingMiddleware : option bool;      (* absent, or the stored value *)
  _middleware_global : list FnValue;        (* _middleware.global *)
  _middleware_named : gmap string FnValue;  (* _middleware.named *)
  _route : option Route;                    (* the reactive mirror *)
  __route : bool;                           (* the getter is defined *)
  app_router : Router;                      (* nuxt2Context.app.router *)
  context_route : Route;                    (* nuxt2Context.app.context.route *)
  ssrContext : option SsrContext;
  baseURL : string                          (* runtime config, app.baseURL *)
}.

(** The component that is being set up, with what vue-router's
    composables return inside it. *)
Record ComponentInstance := mkInstance {
  inst_router : Router;
  inst_route : Route
}.

Record World := mkWorld {
  currentInstance : option ComponentInstance;  (* getCurrentInstance() *)
  nuxtAppBound : bool;               (* an app is bound to the context *)
  nuxtApp : NuxtApp;
  afterEach : list (Router * RouterHook)       (* installed router hooks *)
}.

Definition with_app (f : NuxtApp -> NuxtApp) (w : World) : World :=
  mkWorld (currentInstance w) (nuxtAppBound w) (f (nuxtApp w)) (afterEach w).

Definition set_processing (v : option bool) (a : NuxtApp) : NuxtApp :=
  mkNuxtApp v (_middleware_global a) (_middleware_named a) (_route a)
    (__route a) (app_router a) (context_route a) (ssrContext a) (baseURL a).

Definition set_global (g : list FnValue) (a : NuxtApp) : NuxtApp :=
  mkNuxtApp (_processingMiddleware a) g (_middleware_named a) (_route a)
    (__route a) (app_router a) (context_route a) (ssrContext a) (baseURL a).

Definition set_named (n : gmap string FnValue) (a : NuxtApp) : NuxtApp :=
  mkNuxtApp (_processingMiddleware a) (_middleware_global a) n (_route a)
    (__route a) (app_router a) (context_route a) (ssrContext a) (baseURL a).

Definition set_route (r : option Route) (a : NuxtApp) : NuxtApp :=
  mkNuxtApp (_processingMiddleware a) (_middleware_global a)
    (_middleware_named a) r
    (__route a) (app_router a) (context_route a) (ssrContext a) (baseURL a).

Definition define__route (a : NuxtApp) : NuxtApp :=
  mkNuxtApp (_processingMiddleware a) (_middleware_global a)
    (_middleware_named a) (_route a)
    true (app_router a) (context_route a) (ssrContext a) (baseURL a).

Definition bind_app (w : World) : World :=
  mkWorld (currentInstance w) true (nuxtApp w) (afterEach w).

Definition add_afterEach (r : Router) (h : RouterHook) (w : World) : World :=
  mkWorld (currentInstance w) (nuxtAppBound w) (nuxtApp w)
    (afterEach w ++ [(r, h)]).

(** ** Events: the calls that leave the module *)

Inductive Event :=
| EvOpen (url target features : string)          (* window.open *)
| EvCallHook (name : string)                     (* nuxtApp.callHook *)
| EvSendRedirect (ev : option H3Event) (location : string) (code : Z)
| EvLocationReplace (url : string)               (* location.replace *)
| EvLocationHref (url : string)                  (* location.href = *)
| EvRouterPush (r : Router) (to : RawLocation)
| EvRouterReplace (r : Router) (to : RawLocation)
| EvShowError (e : NuxtError)
| EvCtxError (v : JsValue)                       (* ctx.error *)
| EvCtxRedirect (v : JsValue)                    (* ctx.redirect *)
| EvReactive (r : Route)                         (* reactive() *)
| EvAfterEach (r : Router).                      (* router.afterEach *)

(** ** The monad *)

Inductive Completion (A : Type) :=
| Return (a : A)
| Throw (e : JsValue).
Arguments Return {A} a.
Arguments Throw {A} e.

Record Run (A : Type) := mkRun {
  outcome : Completion A;
  final : World;
  events : list Event
}.
Arguments mkRun {A} _ _ _.
Arguments outcome {A} _.
Arguments final {A} _.
Arguments events {A} _.

Definition M (A : Type) : Type := World -> Run A.

Definition ret {A} (a : A) : M A := fun w => mkRun (Return a) w [].

Definition throw {A} (e : JsValue) : M A := fun w => mkRun (Throw e) w [].

Definition bind {A B} (m : M A) (k : A -> M B) : M B := fun w =>
  let r := m w in
  match outcome r with
  | Return a =>
      let r' := k a (final r) in
      mkRun (outcome r') (final r') (events r ++ events r')
  | Throw e => mkRun (Throw e) (final r) (events r)
  end.

Definition emit (e : Event) : M unit := fun w => mkRun (Return tt) w [e].

Definition get : M World := fun w => mkRun (Return w) w [].

Definition modify (f : World -> World) : M unit :=
  fun w => mkRun (Return tt) (f w) [].

(** [try { m } catch { h }] *)
Definition try_catch {A} (m : M A) (h : JsValue -> M A) : M A := fun w =>
  let r := m w in
  match outcome r with
  | Return a => r
  | Throw e =>
      let r' := h e (final r) in
      mkRun (outcome r') (final r') (events r ++ events r')
  end.

(** A callback of the host that has no access to the log. *)
Definition lift {A} (f : World -> Completion A * World) : M A := fun w =>
  let '(c, w') := f w in mkRun c w' [].

Declare Scope js_scope.
Delimit Scope js_scope with js.
Notation "x <- m ;; k" := (bind m (fun x => k))
  (at level 100, m at next level, right associativity) : js_scope.
Notation "m ;;; k" := (bind m (fun _ => k))
  (at level 100, right associativity) : js_scope.
Local Open Scope js_scope.

Definition Middleware := Route -> Route -> M JsValue.

(** The legacy context handed to a legacy middleware. [ctx.$_nuxtApp] is
    the application object of the world. *)
Record Ctx := mkCtx {
  route : Route;
  from : Route;
  error : JsValue -> World -> Completion JsValue * World;
  redirect : JsValue -> World -> Completion JsValue * World
}.

Definition LegacyMiddleware := Ctx -> M JsValue.

(** ** The build target *)

Inductive Side := Client | Server.

Record Build := mkBuild { side : Side; process_dev : bool }.

(** [import.meta.client], [process.client] and [process.server] are
    constants of the bundle the module is built into. *)
Definition import_meta_client (b : Build) : bool :=
  match side b with Client => true | Server => false end.
Definition process_client (b : Build) : bool :=
  match side b with Client => true | Server => false end.
Definition process_server (b : Build) : bool :=
  match side b with Client => false | Server => true end.

(** ** Collaborators that are not part of this module *)

(** The URL helpers of [ufo]. [hasProtocol] is the call with
    [{ acceptRelative: true }]; [parseURL_protocol s] is
    [parseURL(s).protocol]. *)
Class Ufo := {
  hasProtocol : string -> bool;
  parseURL_protocol : string -> option string;
  isScriptProtocol : string -> bool;
  joinURL : string -> string -> string;
  withQuery : string -> Query -> string
}.

(** The host: error construction, the router's resolution, the hooks of
    the application and the bodies of the registered functions. *)
Class Host := {
  createError : ErrInput -> NuxtError;
  resolve_fullPath : Router -> RawLocation -> string;
  hook : string -> World -> Completion unit * World;
  middleware_of : nat -> Middleware
}.

(** ** Helpers imported from the sibling modules *)

Definition unavailable : JsValue :=
  VError (PlainError "nuxt app instance unavailable").

(** Modelled from the spec: [useNuxtApp] of [../nuxt], which is not among
    the sources. It gives the externally-owned application instance; its
    callers in this module expect it to throw when no application can be
    reached from the running context (the [catch] clause of
    [isProcessingMiddleware]). *)
Definition useNuxtApp : M NuxtApp := fun w =>
  if nuxtAppBound w then mkRun (Return (nuxtApp w)) w []
  else mkRun (Throw unavailable) w [].

(** Modelled from the spec: [callWithNuxt] of [../nuxt], which is not among
    the sources. It binds the given application to the context and calls
    the function with the arguments. *)
Definition callWithNuxt {A} (f : M A) : M A :=
  modify bind_app ;;; f.

(** Modelled from the spec: [showError] of [./error], which is not among
    the sources: the global error-display hook. *)
Definition showError (e : NuxtError) : M unit := emit (EvShowError e).

(** [reactive(o)] of vue. *)
Definition reactive (r : Route) : M Route := emit (EvReactive r) ;;; ret r.

(** [nuxtApp.callHook(name)] *)
Definition callHook `{Host} (name : string) : M unit :=
  emit (EvCallHook name) ;;; lift (hook name).

(** Writes to the application object reached through a reference. *)
Definition update_app (f : NuxtApp -> NuxtApp) : M unit := modify (with_app f).

(** ** Auto-import equivalents for vue-router *)

Definition cannot_redefine : JsValue :=
  VError (PlainError "Cannot redefine property: __route").

(** [Object.defineProperty(nuxtApp, '__route', { get })]: the property it
    makes is not configurable, so that defining it once more, with the
    new getter of another call, is a [TypeError]. *)
Definition defineProperty__route : M unit :=
  w <- get ;;
  if __route (nuxtApp w) then throw cannot_redefine
  else update_app define__route.

Definition useRouter : M Router :=
  w <- get ;;
  match currentInstance w with
  | Some i => ret (inst_router i)                     (* useVueRouter() *)
  | None => app <- useNuxtApp ;; ret (app_router app)
  end.

(** The callback given to [router.afterEach]:
    [route => Object.assign(nuxtApp._route, route)]. *)
Definition run_hook (h : RouterHook) (r : Route) : M unit :=
  match h with
  | AssignToMirror => update_app (set_route (Some r))
  end.

Definition useRoute : M Route :=
  w <- get ;;
  match currentInstance w with
  | Some i => ret (inst_route i)                      (* useVueRoute() *)
  | None =>
      app <- useNuxtApp ;;
      match _route app with
      | Some r => ret r
      | None =>
          defineProperty__route ;;;
          mirror <- reactive (context_route app) ;;
          update_app (set_route (Some mirror)) ;;;
          router <- useRouter ;;
          emit (EvAfterEach router) ;;;
          modify (add_afterEach router AssignToMirror) ;;;
          ret mirror                   (* nuxtApp._route, just assigned *)
      end
  end.

(** ** Middleware adaptation *)

Definition call_error (ctx : Ctx) (v : JsValue) : M JsValue :=
  emit (EvCtxError v) ;;; lift (error ctx v).

Definition call_redirect (ctx : Ctx) (v : JsValue) : M JsValue :=
  emit (EvCtxRedirect v) ;;; lift (redirect ctx v).

Definition convertToLegacyMiddleware (middleware : Middleware)
  : LegacyMiddleware := fun ctx =>
  update_app (set_processing (Some true)) ;;;
  result <- callWithNuxt (middleware (route ctx) (from ctx)) ;;
  update_app (set_processing None) ;;;
  if instanceof_Error result then call_error ctx result
  else if truthy result then call_redirect ctx result
  else ret result.

Definition defineNuxtRouteMiddleware (middleware : Middleware)
  : LegacyMiddleware := convertToLegacyMiddleware middleware.

Definition isProcessingMiddleware : M bool :=
  try_catch
    (app <- useNuxtApp ;;
     ret (truthy_flag (_processingMiddleware app)))
    (fun _ => ret true).

(** Calling [undefined] is a [TypeError]. *)
Definition not_a_function : JsValue :=
  VError (PlainError "middleware is not a function").

(** The body of a stored function value that is a closure of the
    adaptation: the adapted body of the function it captured. Other values
    are not such closures. *)
Definition legacy_body `{Host} (f : FnValue) : option LegacyMiddleware :=
  match f with
  | FnLegacy (FnMiddleware ref) =>
      Some (convertToLegacyMiddleware (middleware_of ref))
  | FnLegacy FnUndefined =>
      Some (convertToLegacyMiddleware (fun _ _ => throw not_a_function))
  | _ => None
  end.

(** ** navigateTo *)

(** A number of JavaScript, known by the text that its conversion to a
    string gives: [200] is ["200"], [0.5] is ["0.5"], [1e21] is
    ["1e+21"]. *)
Record JsNumber := mkNumber { number_text : string }.

Inductive FeatureValue :=
| FvBool (b : bool)
| FvNumber (n : JsNumber).

(** The entries of the [windowFeatures] object in the order of
    [Object.entries]; [None] is a property whose value is [undefined]. *)
Definition OpenWindowFeatures := list (string * option FeatureValue).

Record OpenOptions := mkOpenOptions {
  target : option string;
  windowFeatures : option OpenWindowFeatures
}.

Record NavigateToOptions := mkNavigateToOptions {
  replace : option bool;
  redirectCode : option Z;
  external : option bool;
  open : option OpenOptions
}.

Definition lower_ascii (c : Ascii.ascii) : Ascii.ascii :=
  let n := Ascii.N_of_ascii c in
  if ((65 <=? n) && (n <=? 90))%N then Ascii.ascii_of_N (n + 32) else c.

(** [String.prototype.toLowerCase] on the ASCII names of the features. *)
Fixpoint toLowerCase (s : string) : string :=
  match s with
  | EmptyString => EmptyString
  | String c r => String (lower_ascii c) (toLowerCase r)
  end.

(** The template literal's conversion of a feature value. *)
Definition feature_to_string (v : FeatureValue) : string :=
  match v with
  | FvBool true => "true"
  | FvBool false => "false"
  | FvNumber n => number_text n
  end.

(** [Array.prototype.join] *)
Fixpoint join (sep : string) (l : list string) : string :=
  match l with
  | [] => ""
  | [x] => x
  | x :: r => x +:+ sep +:+ join sep r
  end.

Definition format_features (wf : OpenWindowFeatures) : string :=
  join ", "
    (omap (fun '(feature, value) =>
             match value with
             | None => None                       (* filtered out *)
             | Some v =>
                 Some (toLowerCase feature +:+ "=" +:+ feature_to_string v)
             end) wf).

(** What [navigateTo] hands back. *)
Inductive NavResult :=
| NavResolved                       (* Promise.resolve() *)
| NavTo (to : RawLocation)          (* the location itself *)
| NavRedirected                     (* the promise of the redirect sent *)
| NavRouter.                        (* the promise of router.push / replace *)

(** [to] after [if (!to) { to = '/' }]. *)
Definition normalize_to (to : option RawLocation) : RawLocation :=
  match to with
  | None => LocString "/"
  | Some (LocString s) => if truthy_string s then LocString s else LocString "/"
  | Some (LocObject l) => LocObject l
  end.

Definition toPath_of `{Ufo} (to : RawLocation) : string :=
  match to with
  | LocString s => s
  | LocObject l =>
      withQuery (or_string (loc_path l) "/") (default [] (loc_query l))
        +:+ or_string (loc_hash l) ""
  end.

Definition opt_external (options : option NavigateToOptions) : bool :=
  match options with Some o => truthy_flag (external o) | None => false end.

Definition opt_replace (options : option NavigateToOptions) : bool :=
  match options with Some o => truthy_flag (replace o) | None => false end.

Definition opt_open (options : option NavigateToOptions) : option OpenOptions :=
  match options with Some o => open o | None => None end.

(** [options?.redirectCode || 302] *)
Definition opt_redirectCode (options : option NavigateToOptions) : Z :=
  match options with
  | Some o =>
      match redirectCode o with
      | Some c => if c =? 0 then 302 else c
      | None => 302
      end
  | None => 302
  end.

Definition not_allowed : JsValue :=
  VError (PlainError
    "Navigating to an external URL is not allowed by default. Use `navigateTo(url, { external: true })`.").

Definition script_protocol_error (protocol : string) : JsValue :=
  VError (PlainError
    ("Cannot navigate to a URL with '" +:+ protocol +:+ "' protocol.")).

(** The [TypeError] of reading a property of [undefined]. *)
Definition no_ssrContext : JsValue :=
  VError (PlainError "Cannot read properties of undefined (reading 'event')").

(** The block guarded by [if (isExternal)]. *)
Definition check_external `{Ufo} (options : option NavigateToOptions)
    (toPath : string) : M unit :=
  if negb (opt_external options) then throw not_allowed
  else
    match parseURL_protocol toPath with
    | Some protocol =>
        if truthy_string protocol && isScriptProtocol protocol
        then throw (script_protocol_error protocol)
        else ret tt
    | None => ret tt
    end.

(** The statements after the server block: client-side redirection. *)
Definition client_redirection (options : option NavigateToOptions)
    (isExternal : bool) (to : RawLocation) (toPath : string)
    (router : Router) : M NavResult :=
  if isExternal then
    (if opt_replace options then emit (EvLocationReplace toPath)
     else emit (EvLocationHref toPath)) ;;;
    ret NavResolved
  else
    (if opt_replace options then emit (EvRouterReplace router to)
     else emit (EvRouterPush router to)) ;;;
    ret NavRouter.

(** The statements from [const isExternal = ...] on. *)
Definition navigate `{Ufo} `{Host} (b : Build)
    (options : option NavigateToOptions) (to : RawLocation)
    (toPath : string) : M NavResult :=
  let isExternal := opt_external options || hasProtocol toPath in
  (if isExternal then check_external options toPath else ret tt) ;;;
  early <- (if process_client b && negb isExternal
            then isProcessingMiddleware else ret false) ;;
  if early then ret (NavTo to)
  else
    router <- useRouter ;;
    if process_server b then
      app <- useNuxtApp ;;                     (* const nuxtApp *)
      match ssrContext app ≫= event with
      | Some _ =>
          let redirectLocation :=
            if isExternal then toPath
            else joinURL (baseURL app)
                   (or_string (Some (resolve_fullPath router to)) "/") in
          callHook "app:redirected" ;;;
          (* the [then] callback reads nuxtApp.ssrContext!.event *)
          now <- get ;;
          match ssrContext (nuxtApp now) with
          | Some context =>
              emit (EvSendRedirect (event context) redirectLocation
                      (opt_redirectCode options)) ;;;
              ret NavRedirected
          | None => throw no_ssrContext
          end
      | None => client_redirection options isExternal to toPath router
      end
    else client_redirection options isExternal to toPath router.

Definition navigateTo `{Ufo} `{Host} (b : Build) (to : option RawLocation)
    (options : option NavigateToOptions) : M NavResult :=
  let to := normalize_to to in
  let toPath := toPath_of to in
  match opt_open options with
  | Some o =>
      if import_meta_client b then
        emit (EvOpen toPath (default "_blank" (target o))
                (format_features (default [] (windowFeatures o)))) ;;;
        ret NavResolved
      else navigate b options to toPath
  | None => navigate b options to toPath
  end.

(** Whether the early open handler takes the call. *)
Definition early_open (b : Build) (options : option NavigateToOptions) : bool :=
  match opt_open options with
  | Some _ => import_meta_client b
  | None => false
  end.

(** The router that [useRouter] finds in a world where the application
    can be reached. *)
Definition active_router (w : World) : Router :=
  match currentInstance w with
  | Some i => inst_router i
  | None => app_router (nuxtApp w)
  end.

(** ** abortNavigation *)

Definition only_in_middleware : JsValue :=
  VError (PlainError
    "abortNavigation() is only usable inside a route middleware handler.").

(** The argument when [!err] is false: an object, or a string that is
    not empty. *)
Definition given_err (err : option ErrInput) : option ErrInput :=
  match err with
  | Some (ErrString s) => if truthy_string s then err else None
  | Some (ErrObject _) => err
  | None => None
  end.

Definition abortNavigation `{Host} (b : Build) (err : option ErrInput)
  : M JsValue :=
  outside <- (if process_dev b
              then p <- isProcessingMiddleware ;; ret (negb p)
              else ret false) ;;
  if outside then throw only_in_middleware
  else
    match given_err err with
    | None => ret (VBool false)
    | Some e =>
        let err := createError e in
        (if fatal err
         then _ <- useNuxtApp ;; callWithNuxt (showError err)
         else ret tt) ;;;
        throw (VError (NuxtErr err))
    end.

(** ** addRouteMiddleware *)

Record AddRouteMiddlewareOptions := mkAddOptions { global : option bool }.

(** The first parameter: [string | RouteMiddleware]. *)
Inductive NameArg :=
| NameString (name : string)
| NameFunction (ref : nat).

Definition is_function (n : NameArg) : bool :=
  match n with NameFunction _ => true | NameString _ => false end.

(** The value of an optional function parameter. *)
Definition fn_of (middleware : option nat) : FnValue :=
  match middleware with Some f => FnMiddleware f | None => FnUndefined end.

(** The second parameter is optional; the third defaults to [{}]. *)
Definition addRouteMiddleware (name : NameArg) (middleware : option nat)
    (options : option AddRouteMiddlewareOptions) : M unit :=
  let options := default (mkAddOptions None) options in
  let middleware := fn_of middleware in
  nuxtApp <- useNuxtApp ;;
  match name, truthy_flag (global options) with
  | NameString s, false =>
      update_app (fun a =>
        set_named (<[s := FnLegacy middleware]> (_middleware_named a)) a)
  | _, _ =>
      let pushed :=
        match name with
        | NameFunction f => FnMiddleware f
        | NameString _ => middleware
        end in
      update_app (fun a => set_global (_middleware_global a ++ [pushed]) a)
  end.

(** Whether a call asks for a global registration by its option. *)
Definition opt_global (options : option AddRouteMiddlewareOptions) : bool :=
  match options with Some o => truthy_flag (global o) | None => false end.

(** The awaited call inside an adapted middleware: the middleware run
    from the world in which the flag has just been set. *)
Definition middleware_run (middleware : Middleware) (ctx : Ctx) (w : World)
  : Run JsValue :=
  callWithNuxt (middleware (route ctx) (from ctx))
    (with_app (set_processing (Some true)) w).

(** The result of a legacy callback run in a world. *)
Definition callback_run (f : JsValue -> World -> Completion JsValue * World)
    (v : JsValue) (w : World) : Run JsValue :=
  let '(c, w') := f v w in mkRun c w' [].

(** [n] calls of a computation in a row, each from the world the one
    before left. *)
Fixpoint repeat_run {A} (m : M A) (n : nat) (w : World) : list (Run A) :=
  match n with
  | O => []
  | S k => let r := m w in r :: repeat_run m k (final r)
  end.

(** ** Sample collaborators and worlds

    Concrete instances on which the definitions can be run. *)

Definition sample_protocols : list (string * string) :=
  [("https://", "https:"); ("http://", "http:");
   ("javascript:", "javascript:"); ("//", "")].

Definition sample_protocol (s : string) : option string :=
  snd <$> List.find (fun p => String.prefix (fst p) s) sample_protocols.

Definition sample_ufo : Ufo := {|
  hasProtocol s := bool_decide (is_Some (sample_protocol s));
  parseURL_protocol s := sample_protocol s;
  isScriptProtocol p :=
    existsb (String.eqb p) ["javascript:"; "vbscript:"; "data:"; "blob:"];
  joinURL base p := base +:+ p;
  withQuery p q :=
    match q with
    | [] => p
    | _ => p +:+ "?" +:+ join "&" ((fun kv => fst kv +:+ "=" +:+ snd kv) <$> q)
    end
|}.

Definition sample_createError (e : ErrInput) : NuxtError :=
  match e with
  | ErrString s => mkNuxtError s 500 false
  | ErrObject p =>
      mkNuxtError (default "" (p_message p)) (default 500 (p_statusCode p))
        (default false (p_fatal p))
  end.

Definition sample_app : NuxtApp := {|
  _processingMiddleware := None;
  _middleware_global := [];
  _middleware_named := ∅;
  _route := None;
  __route := false;
  app_router := mkRouter 1;
  context_route := mkRoute "/" [] "" "/";
  ssrContext := None;
  baseURL := "/app"
|}.

Definition sample_world : World := {|
  currentInstance := None;
  nuxtAppBound := true;
  nuxtApp := sample_app;
  afterEach := []
|}.

Definition sample_ctx : Ctx := {|
  route := mkRoute "/admin" [] "" "/admin";
  from := mkRoute "/" [] "" "/";
  error := fun v w => (Return VUndefined, w);
  redirect := fun v w => (Return VUndefined, w)
|}.

Definition production : Build := mkBuild Client false.

Definition sample_host : Host := {|
  createError := sample_createError;
  resolve_fullPath := fun _ to => @toPath_of sample_ufo to;
  hook := fun _ w => (Return tt, w);
  middleware_of := fun ref _ _ =>
    match ref with
    | O => ret VUndefined
    | 1%nat => ret (VString "/login")
    | _ => throw (VError (PlainError "denied"))
    end
|}.

Definition sample_server_world : World := {|
  currentInstance := None;
  nuxtAppBound := true;
  nuxtApp := {|
    _processingMiddleware := None;
    _middleware_global := [];
    _middleware_named := ∅;
    _route := None;
    __route := false;
    app_router := mkRouter 1;
    context_route := mkRoute "/" [] "" "/";
    ssrContext := Some (mkSsrContext (Some (mkH3Event 7)));
    baseURL := "/app"
  |};
  afterEach := []
|}.

Definition server : Build := mkBuild Server false.

Definition unbound_world : World := mkWorld None false sample_app [].

Definition component_world : World :=
  mkWorld (Some (mkInstance (mkRouter 2) (mkRoute "/c" [] "" "/c"))) true
    sample_app [].

Definition fatal_error : ErrInput :=
  ErrObject (mkPartialNuxtError (Some "gone") (Some 410) (Some true)).

Definition moved_permanently : NavigateToOptions :=
  mkNavigateToOptions None (Some 301) None None.

Definition processing_world : World :=
  with_app (set_processing (Some true)) sample_world.

Definition rejecting_host : Host := {|
  createError := sample_createError;
  resolve_fullPath := fun _ to => @toPath_of sample_ufo to;
  hook := fun _ w => (Throw (VError (PlainError "hook failed")), w);
  middleware_of := fun _ _ _ => ret VUndefined
|}.

Definition only_open : NavigateToOptions :=
  mkNavigateToOptions None None None (Some (mkOpenOptions (Some "_blank") None)).

Definition popup : OpenOptions :=
  mkOpenOptions None
    (Some [("popup", Some (FvBool true)); ("innerWidth", Some (FvNumber (mkNumber "200")));
           ("left", None)]).

Definition external_open : NavigateToOptions :=
  mkNavigateToOptions None None (Some true)
    (Some (mkOpenOptions (Some "_self") None)).

(** A middleware that reports what [isProcessingMiddleware] answers while
    it runs, and one that aborts the navigation. *)
Definition observing_middleware : Middleware := fun _ _ =>
  (p <- isProcessingMiddleware ;; ret (VBool p))%js.

Definition aborting_middleware : Middleware := fun _ _ =>
  @abortNavigation sample_host production (Some (ErrString "forbidden")).

(** The getter [__route] is defined only together with the mirror: the
    state in which [useRoute] keeps an application. *)
Definition getter_has_mirror (w : World) : Prop :=
  __route (nuxtApp w) = true -> is_Some (_route (nuxtApp w)).

(** What [isProcessingMiddleware] answers in a world: the flag is truthy,
    or no application can be reached. *)
Definition processing (w : World) : bool :=
  negb (nuxtAppBound w) || truthy_flag (_processingMiddleware (nuxtApp w)).

(** ** Uses of the module

    How callers put the functions together: a navigation option set
    without its [open] entry, a middleware that returns what [navigateTo]
    gives, one that calls [abortNavigation], a run of registrations, and
    the router firing its [afterEach] hooks. *)

Definition without_open (options : option NavigateToOptions)
  : option NavigateToOptions :=
  match options with
  | Some o =>
      Some (mkNavigateToOptions (replace o) (redirectCode o) (external o) None)
  | None => None
  end.

(** Whether a target gets past the block guarded by [if (isExternal)]. *)
Definition passes_checks `{Ufo} (options : option NavigateToOptions)
    (toPath : string) : bool :=
  if opt_external options || hasProtocol toPath then
    opt_external options
    && negb match parseURL_protocol toPath with
            | Some protocol => truthy_string protocol && isScriptProtocol protocol
            | None => false
            end
  else true.

(** A location as a value a middleware returns. *)
Definition location_value (to : RawLocation) : JsValue :=
  match to with
  | LocString s => VString s
  | LocObject l => VLocation l
  end.

(** [(to, from) => navigateTo(target, options)]: the middleware returns
    what [navigateTo] gives, and the adapter awaits it. A location is its
    own value and [Promise.resolve()] settles to [undefined]; what the
    promises of the router and of the redirect settle to is up to the
    host ([settle]). *)
Definition returning_navigateTo `{Ufo} `{Host} (settle : NavResult -> JsValue)
    (b : Build) (to : option RawLocation) (options : option NavigateToOptions)
  : Middleware := fun _ _ =>
  r <- navigateTo b to options ;;
  ret match r with
      | NavTo t => location_value t
      | NavResolved => VUndefined
      | other => settle other
      end.

(** [(to, from) => abortNavigation(err)] *)
Definition returning_abortNavigation `{Host} (b : Build)
    (err : option ErrInput) : Middleware := fun _ _ => abortNavigation b err.

(** [addRouteMiddleware(f)] for each function of a list, in order. *)
Fixpoint register_globally (fs : list nat) : M unit :=
  match fs with
  | [] => ret tt
  | f :: rest =>
      addRouteMiddleware (NameFunction f) None None ;;; register_globally rest
  end.

Global Instance Router_eq_dec : EqDecision Router.
Proof. solve_decision. Defined.

(** The router calling the hooks installed on it, after a navigation to
    [r]. *)
Fixpoint run_hooks (router : Router) (r : Route)
    (hooks : list (Router * RouterHook)) : M unit :=
  match hooks with
  | [] => ret tt
  | (owner, h) :: rest =>
      (if decide (owner = router) then run_hook h r else ret tt) ;;;
      run_hooks router r rest
  end.

Definition fire_afterEach (router : Router) (r : Route) : M unit :=
  w <- get ;; run_hooks router r (afterEach w).

(** Events that are calls on the legacy context. *)
Definition is_ctx_call (e : Event) : bool :=
  match e with
  | EvCtxError _ | EvCtxRedirect _ => true
  | _ => false
  end.

(** Events that are calls on the router. *)
Definition is_router_call (e : Event) : bool :=
  match e with
  | EvRouterPush _ _ | EvRouterReplace _ _ => true
  | _ => false
  end.

(** * Properties *)

(** ** Laws of the monad used below *)

Lemma bind_ret_l {A B} (a : A) (k : A -> M B) w : bind (ret a) k w = k a w.
Proof. unfold bind, ret; simpl. by destruct (k a w). Qed.

Lemma bind_throw {A B} (e : JsValue) (k : A -> M B) w :
  bind (throw e) k w = throw e w.
Proof. reflexivity. Qed.

Lemma run_eta {A} (r : Run A) : mkRun (outcome r) (final r) (events r) = r.
Proof. by destruct r. Qed.

Lemma isProcessingMiddleware_spec w :
  isProcessingMiddleware w = mkRun (Return (processing w)) w [].
Proof.
  unfold isProcessingMiddleware, try_catch, bind, useNuxtApp, processing, ret.
  by destruct (nuxtAppBound w).
Qed.

Lemma useNuxtApp_bound w :
  nuxtAppBound w = true -> useNuxtApp w = mkRun (Return (nuxtApp w)) w [].
Proof. unfold useNuxtApp. by intros ->. Qed.

Lemma useNuxtApp_unbound w :
  nuxtAppBound w = false -> useNuxtApp w = mkRun (Throw unavailable) w [].
Proof. unfold useNuxtApp. by intros ->. Qed.

(** ** addRouteMiddleware *)

Section Registration.
Context `{Host}.

Lemma addRouteMiddleware_unbound name middleware options w :
  nuxtAppBound w = false ->
  addRouteMiddleware name middleware options w
  = mkRun (Throw unavailable) w [].
Proof.
  intros Hb. unfold addRouteMiddleware, bind.
  by rewrite (useNuxtApp_unbound _ Hb).
Qed.

(** A function as given is not a closure of the adaptation. *)
Lemma legacy_body_plain ref : legacy_body (FnMiddleware ref) = None.
Proof. reflexivity. Qed.
End Registration.

(** C1 (as amended). A registration under a name (the name is a string and
    the [global] option is not set) stores the adapted wrapper of the
    function in the named registry (the stored value is the closure whose
    body is [convertToLegacyMiddleware] of the function), leaving the other
    names and the global list as they were. A global registration (the
    [global] option, or a function as only argument) appends the function
    itself, not adapted, to the global list and leaves the named registry
    as it was. *)
Theorem addRouteMiddleware_registers `{Host}
    (name : NameArg) (middleware : option nat)
    (options : option AddRouteMiddlewareOptions) (w : World) :
  nuxtAppBound w = true ->
  let r := addRouteMiddleware name middleware options w in
  let before := nuxtApp w in
  let after := nuxtApp (final r) in
  outcome r = Return tt /\ events r = [] /\
  match name with
  | NameString s =>
      if opt_global options then
        _middleware_global after = _middleware_global before ++ [fn_of middleware]
        /\ _middleware_named after = _middleware_named before
      else
        _middleware_named after !! s = Some (FnLegacy (fn_of middleware))
        /\ (forall f, middleware = Some f ->
              _middleware_named after !! s ≫= legacy_body
              = Some (convertToLegacyMiddleware (middleware_of f)))
        /\ (forall s', s' <> s ->
              _middleware_named after !! s' = _middleware_named before !! s')
        /\ _middleware_global after = _middleware_global before
  | NameFunction f =>
      _middleware_global after = _middleware_global before ++ [FnMiddleware f]
      /\ last (_middleware_global after) ≫= legacy_body = None
      /\ _middleware_named after = _middleware_named before
  end.
Proof.
  intros Hb. unfold addRouteMiddleware, bind.
  rewrite (useNuxtApp_bound _ Hb). cbn [outcome final events].
  destruct name as [s|f].
  - destruct options as [[[[|]|]]|]; cbn; split_and!; auto;
      try (by rewrite lookup_insert_eq);
      try (by intros s' Hs'; rewrite lookup_insert_ne);
      intros f ->; by rewrite lookup_insert_eq.
  - cbn. split_and!; auto. by rewrite last_snoc.
Qed.

Lemma addRouteMiddleware_registers_witness :
  _middleware_named
    (nuxtApp (final (addRouteMiddleware (NameString "auth") (Some 1%nat) None
                       sample_world))) !! "auth"
  = Some (FnLegacy (FnMiddleware 1)).
Proof.
  pose proof (@addRouteMiddleware_registers sample_host (NameString "auth")
                (Some 1%nat) None sample_world eq_refl) as (_ & _ & Hn & _).
  exact Hn.
Defined.

(** C1 (as stated) fails on a global registration: the function pushed onto
    the global list is the function that was passed, not its adapted
    wrapper. *)
Lemma addRouteMiddleware_global_not_wrapped :
  let r := addRouteMiddleware (NameFunction 1) None None sample_world in
  _middleware_global (nuxtApp (final r)) = [FnMiddleware 1]
  /\ last (_middleware_global (nuxtApp (final r)))
     <> Some (FnLegacy (FnMiddleware 1))
  /\ (let r' := addRouteMiddleware (NameString "auth") (Some 1%nat)
                  (Some (mkAddOptions (Some true))) sample_world in
      _middleware_global (nuxtApp (final r')) = [FnMiddleware 1]
      /\ _middleware_named (nuxtApp (final r')) !! "auth" = None).
Proof. cbn. split_and!; try reflexivity. discriminate. Qed.

(** ** Middleware adaptation *)

Section Adaptation.
Variables (middleware : Middleware) (ctx : Ctx) (w : World).

Let awaited := middleware_run middleware ctx w.
Let adapted := convertToLegacyMiddleware middleware ctx w.
(** The world after [delete ctx.$_nuxtApp._processingMiddleware]. *)
Let cleared := with_app (set_processing None) (final awaited).

(** The adapted middleware up to the end of the awaited call. *)
Lemma adapted_unfold :
  adapted =
  match outcome awaited with
  | Throw e => mkRun (Throw e) (final awaited) (events awaited)
  | Return result =>
      let k := if instanceof_Error result then call_error ctx result
               else if truthy result then call_redirect ctx result
               else ret result in
      mkRun (outcome (k cleared)) (final (k cleared))
        (events awaited ++ events (k cleared))
  end.
Proof.
  subst adapted cleared awaited.
  unfold convertToLegacyMiddleware, middleware_run, callWithNuxt.
  unfold bind, update_app, modify. cbn [outcome final events].
  destruct (middleware (route ctx) (from ctx) _) as [[result|e] w1 ev1];
    cbn [outcome final events]; [|reflexivity].
  destruct (instanceof_Error result), (truthy result);
    cbn [outcome final events]; reflexivity.
Qed.

(** A middleware that throws: the exception passes through the adapter,
    which stops there. *)
Lemma adapted_throw e :
  outcome awaited = Throw e ->
  adapted = mkRun (Throw e) (final awaited) (events awaited).
Proof. intros He. rewrite adapted_unfold, He. reflexivity. Qed.

(** A middleware that returns: the flag is removed from the world in
    which the callbacks of the context run. *)
Lemma adapted_cleared_before_callbacks :
  _processingMiddleware (nuxtApp cleared) = None.
Proof. reflexivity. Qed.

Lemma adapted_falsy result :
  outcome awaited = Return result ->
  truthy result = false ->
  adapted = mkRun (Return result) cleared (events awaited).
Proof.
  intros Hr Ht. rewrite adapted_unfold, Hr.
  assert (instanceof_Error result = false) as ->
    by (destruct result; try reflexivity; discriminate).
  rewrite Ht. cbn. by rewrite app_nil_r.
Qed.

Lemma adapted_error result :
  outcome awaited = Return result ->
  instanceof_Error result = true ->
  outcome adapted = outcome (callback_run (error ctx) result cleared)
  /\ final adapted = final (callback_run (error ctx) result cleared)
  /\ events adapted = events awaited ++ [EvCtxError result].
Proof.
  intros Hr Ht. rewrite adapted_unfold, Hr, Ht.
  unfold call_error, callback_run, bind, emit, lift. cbn.
  by destruct (error ctx result cleared).
Qed.

Lemma adapted_redirect result :
  outcome awaited = Return result ->
  instanceof_Error result = false ->
  truthy result = true ->
  outcome adapted = outcome (callback_run (redirect ctx) result cleared)
  /\ final adapted = final (callback_run (redirect ctx) result cleared)
  /\ events adapted = events awaited ++ [EvCtxRedirect result].
Proof.
  intros Hr He Ht. rewrite adapted_unfold, Hr, He, Ht.
  unfold call_redirect, callback_run, bind, emit, lift. cbn.
  by destruct (redirect ctx result cleared).
Qed.
End Adaptation.

(** C2. Once the awaited middleware has returned [result], the adapted
    middleware makes these calls on the legacy context and no other:
    [ctx.error(result)] exactly when [result] is an [Error],
    [ctx.redirect(result)] exactly when it is truthy and not an [Error],
    none exactly when it is falsy, and then it returns [result] itself. *)
Theorem convertToLegacyMiddleware_dispatch
    (middleware : Middleware) (ctx : Ctx) (w : World) (result : JsValue) :
  outcome (middleware_run middleware ctx w) = Return result ->
  let awaited := middleware_run middleware ctx w in
  let adapted := convertToLegacyMiddleware middleware ctx w in
  exists calls : list Event,
    events adapted = events awaited ++ calls
    /\ (length calls <= 1)%nat
    /\ (forall ev, ev ∈ calls ->
          ev = EvCtxError result \/ ev = EvCtxRedirect result)
    /\ (EvCtxError result ∈ calls <-> instanceof_Error result = true)
    /\ (EvCtxRedirect result ∈ calls <->
          instanceof_Error result = false /\ truthy result = true)
    /\ (calls = [] <-> truthy result = false)
    /\ (truthy result = false -> outcome adapted = Return result).
Proof.
  intros Hr awaited adapted.
  destruct (instanceof_Error result) eqn:He.
  - destruct (adapted_error middleware ctx w result Hr He) as (_ & _ & Hev).
    assert (truthy result = true) as Ht
      by (destruct result; try discriminate; reflexivity).
    exists [EvCtxError result]. rewrite Ht. split_and!.
    + exact Hev.
    + cbn; lia.
    + intros ev Hin%list_elem_of_singleton. by left.
    + split; [done | intros _; by apply list_elem_of_singleton].
    + split; [intros Hin%list_elem_of_singleton; discriminate | by intros [? _]].
    + split; discriminate.
    + discriminate.
  - destruct (truthy result) eqn:Ht.
    + destruct (adapted_redirect middleware ctx w result Hr He Ht)
        as (_ & _ & Hev).
      exists [EvCtxRedirect result]. split_and!.
      * exact Hev.
      * cbn; lia.
      * intros ev Hin%list_elem_of_singleton. by right.
      * split; [intros Hin%list_elem_of_singleton; discriminate | done].
      * split; [done | intros _; by apply list_elem_of_singleton].
      * split; discriminate.
      * discriminate.
    + pose proof (adapted_falsy middleware ctx w result Hr Ht) as Had.
      exists []. subst adapted awaited. rewrite Had. cbn [events outcome].
      split_and!.
      * by rewrite app_nil_r.
      * cbn; lia.
      * intros ev Hin. by apply not_elem_of_nil in Hin.
      * split; [intros Hin; by apply not_elem_of_nil in Hin | discriminate].
      * split; [intros Hin; by apply not_elem_of_nil in Hin | by intros [_ ?]].
      * done.
      * done.
Qed.

Lemma convertToLegacyMiddleware_dispatch_witness :
  outcome (middleware_run (fun _ _ => ret (VBool true)) sample_ctx sample_world)
  = Return (VBool true)
  /\ exists calls : list Event,
       events (convertToLegacyMiddleware (fun _ _ => ret (VBool true))
                 sample_ctx sample_world) = [] ++ calls
       /\ EvCtxRedirect (VBool true) ∈ calls.
Proof.
  split; [reflexivity|].
  destruct (convertToLegacyMiddleware_dispatch (fun _ _ => ret (VBool true))
              sample_ctx sample_world (VBool true) eq_refl)
    as (calls & Hev & _ & _ & _ & Hred & _).
  exists calls. split; [exact Hev|]. apply Hred. by split.
Defined.

(** While the awaited middleware runs, [isProcessingMiddleware] answers
    [true], whatever the flag was before. *)
Lemma flag_set_during_middleware ctx w :
  events (convertToLegacyMiddleware observing_middleware ctx w)
  = [EvCtxRedirect (VBool true)].
Proof.
  unfold convertToLegacyMiddleware, observing_middleware, callWithNuxt.
  unfold bind, update_app, modify. cbn [outcome final events].
  rewrite isProcessingMiddleware_spec.
  cbn [outcome final events processing bind_app with_app set_processing
       nuxtAppBound nuxtApp _processingMiddleware truthy_flag negb orb ret
       instanceof_Error truthy].
  unfold call_redirect, bind, emit, lift. cbn [outcome final events].
  by destruct (redirect ctx _ _).
Qed.

(** After an awaited middleware that returned a falsy value the adapted
    middleware returns with the flag removed. *)
Lemma flag_removed_after_return middleware ctx w result :
  outcome (middleware_run middleware ctx w) = Return result ->
  truthy result = false ->
  _processingMiddleware
    (nuxtApp (final (convertToLegacyMiddleware middleware ctx w))) = None.
Proof.
  intros Hr Ht. by rewrite (adapted_falsy middleware ctx w result Hr Ht).
Qed.

(** C3 at a middleware that throws. The middleware aborts the navigation
    with [abortNavigation('forbidden')]. The adapted middleware rejects
    with that error and the flag is still set: [isProcessingMiddleware]
    keeps answering [true], so that a later [navigateTo] on the client
    hands the location back instead of asking the router. *)
Theorem flag_left_set_when_middleware_throws :
  let r := convertToLegacyMiddleware aborting_middleware sample_ctx
             sample_world in
  outcome r = Throw (VError (NuxtErr (mkNuxtError "forbidden" 500 false)))
  /\ _processingMiddleware (nuxtApp (final r)) = Some true
  /\ processing (final r) = true
  /\ @navigateTo sample_ufo sample_host production
       (Some (LocString "/next")) None (final r)
     = mkRun (Return (NavTo (LocString "/next"))) (final r) [].
Proof. repeat split. Qed.

(** ** navigateTo *)

Example format_features_example :
  format_features
    [("popup", Some (FvBool true)); ("innerWidth", Some (FvNumber (mkNumber "200")));
     ("height", None); ("noopener", Some (FvBool false))]
  = "popup=true, innerwidth=200, noopener=false".
Proof. reflexivity. Qed.

Example normalize_to_examples :
  normalize_to None = LocString "/"
  /\ normalize_to (Some (LocString "")) = LocString "/"
  /\ normalize_to (Some (LocString "/a")) = LocString "/a".
Proof. repeat split. Qed.

Section Navigation.
Context `{Ufo} `{Host}.
Variables (b : Build) (to : option RawLocation)
          (options : option NavigateToOptions) (w : World).

Let target_location := normalize_to to.
Let toPath := toPath_of target_location.

(** Calls that the early open handler does not take go on to the
    checks. *)
Lemma navigateTo_past_open :
  early_open b options = false ->
  navigateTo b to options w = navigate b options target_location toPath w.
Proof.
  unfold navigateTo, early_open.
  destruct (opt_open options); [|reflexivity].
  by intros ->.
Qed.

Lemma useRouter_bound :
  nuxtAppBound w = true ->
  useRouter w = mkRun (Return (active_router w)) w [].
Proof.
  intros Hb. unfold useRouter, active_router, bind, get.
  cbn [outcome final events].
  destruct (currentInstance w); [reflexivity|].
  by rewrite (useNuxtApp_bound _ Hb).
Qed.
End Navigation.

(** C4 (as amended). A call that the early open handler does not take (no
    [open] option, or not on the client), for a target whose path has a
    protocol and without [external: true], throws at once: nothing is
    logged (no navigation, hook call or redirect) and the world is as it
    was. *)
Theorem navigateTo_external_needs_opt_in `{Ufo} `{Host}
    (b : Build) (to : option RawLocation)
    (options : option NavigateToOptions) (w : World) :
  hasProtocol (toPath_of (normalize_to to)) = true ->
  opt_external options = false ->
  early_open b options = false ->
  navigateTo b to options w = mkRun (Throw not_allowed) w [].
Proof.
  intros Hp He Ho. rewrite navigateTo_past_open by exact Ho.
  unfold navigate, check_external, bind. rewrite He, Hp. reflexivity.
Qed.

Lemma navigateTo_external_needs_opt_in_witness :
  @navigateTo sample_ufo sample_host server
    (Some (LocString "https://example.com")) (Some only_open) sample_world
  = mkRun (Throw not_allowed) sample_world [].
Proof.
  apply (@navigateTo_external_needs_opt_in sample_ufo sample_host);
    reflexivity.
Defined.

(** C4 (as stated) fails on the client when the [open] option is set: the
    URL has a protocol, [external] is not set, and the window is opened
    without any exception. *)
Lemma navigateTo_open_skips_opt_in :
  @hasProtocol sample_ufo "https://example.com" = true
  /\ opt_external (Some only_open) = false
  /\ @navigateTo sample_ufo sample_host production
       (Some (LocString "https://example.com")) (Some only_open) sample_world
     = mkRun (Return NavResolved) sample_world
         [EvOpen "https://example.com" "_blank" ""].
Proof. repeat split. Qed.

(** C5 (as amended). A call that the early open handler does not take,
    with [external: true], for a target whose protocol is a script
    protocol, throws the error that names the protocol; nothing is logged
    and the world is as it was. *)
Theorem navigateTo_script_protocol `{Ufo} `{Host}
    (b : Build) (to : option RawLocation)
    (options : option NavigateToOptions) (w : World) (protocol : string) :
  parseURL_protocol (toPath_of (normalize_to to)) = Some protocol ->
  protocol <> "" ->
  isScriptProtocol protocol = true ->
  opt_external options = true ->
  early_open b options = false ->
  navigateTo b to options w
  = mkRun
      (Throw (VError (PlainError
         ("Cannot navigate to a URL with '" +:+ protocol +:+ "' protocol."))))
      w [].
Proof.
  intros Hp Hne Hs He Ho. rewrite navigateTo_past_open by exact Ho.
  unfold navigate, check_external, bind. rewrite He. cbn [orb negb].
  rewrite Hp, Hs.
  assert (truthy_string protocol = true) as ->.
  { unfold truthy_string. apply negb_true_iff, String.eqb_neq, Hne. }
  reflexivity.
Qed.

Lemma navigateTo_script_protocol_witness :
  @navigateTo sample_ufo sample_host production
    (Some (LocString "javascript:alert(1)"))
    (Some (mkNavigateToOptions None None (Some true) None)) sample_world
  = mkRun
      (Throw (VError (PlainError
         "Cannot navigate to a URL with 'javascript:' protocol.")))
      sample_world [].
Proof.
  apply (@navigateTo_script_protocol sample_ufo sample_host production
           (Some (LocString "javascript:alert(1)"))
           (Some (mkNavigateToOptions None None (Some true) None))
           sample_world "javascript:");
    [reflexivity | discriminate | reflexivity | reflexivity | reflexivity].
Defined.

(** C5 (as stated) fails on the client when the [open] option is set:
    with [external: true] a [javascript:] URL is opened in a window and no
    exception is thrown. *)
Lemma navigateTo_open_skips_protocol_check :
  @parseURL_protocol sample_ufo "javascript:alert(1)" = Some "javascript:"
  /\ @isScriptProtocol sample_ufo "javascript:" = true
  /\ opt_external (Some external_open) = true
  /\ @navigateTo sample_ufo sample_host production
       (Some (LocString "javascript:alert(1)")) (Some external_open)
       sample_world
     = mkRun (Return NavResolved) sample_world
         [EvOpen "javascript:alert(1)" "_self" ""].
Proof. repeat split. Qed.

(** C10. On the client, a call with the [open] option opens a window with
    the path of the normalized target, the target name ([_blank] when none
    is given) and the formatted features, and returns a resolved promise.
    Neither the opt-in check nor the protocol check takes part: the run is
    the same whatever the target, the [external] option and the answers of
    [hasProtocol], [parseURL] and [isScriptProtocol] are. *)
Theorem navigateTo_open `{Ufo} `{Host}
    (b : Build) (to : option RawLocation)
    (options : option NavigateToOptions) (o : OpenOptions) (w : World) :
  side b = Client ->
  opt_open options = Some o ->
  navigateTo b to options w
  = mkRun (Return NavResolved) w
      [EvOpen (toPath_of (normalize_to to))
         (default "_blank" (target o))
         (format_features (default [] (windowFeatures o)))].
Proof.
  intros Hs Ho. unfold navigateTo, import_meta_client. rewrite Ho, Hs.
  reflexivity.
Qed.

Lemma navigateTo_open_witness :
  @navigateTo sample_ufo sample_host production
    (Some (LocObject (mkLocation (Some "/docs") None (Some "#api"))))
    (Some (mkNavigateToOptions None None None (Some popup))) sample_world
  = mkRun (Return NavResolved) sample_world
      [EvOpen "/docs#api" "_blank" "popup=true, innerwidth=200"].
Proof.
  exact (@navigateTo_open sample_ufo sample_host production
           (Some (LocObject (mkLocation (Some "/docs") None (Some "#api"))))
           (Some (mkNavigateToOptions None None None (Some popup))) popup
           sample_world eq_refl eq_refl).
Defined.

(** C6 (as amended). On the client, without the [open] option, for a target
    that is not external, while middleware is being processed (the flag is
    set, or no application can be reached), [navigateTo] returns the
    normalized target location itself; the router is not asked to push or
    replace (nothing is logged) and the world is as it was. *)
Theorem navigateTo_early_redirect `{Ufo} `{Host}
    (b : Build) (to : option RawLocation)
    (options : option NavigateToOptions) (w : World) :
  side b = Client ->
  opt_open options = None ->
  opt_external options = false ->
  hasProtocol (toPath_of (normalize_to to)) = false ->
  truthy_flag (_processingMiddleware (nuxtApp w)) = true
    \/ nuxtAppBound w = false ->
  navigateTo b to options w = mkRun (Return (NavTo (normalize_to to))) w [].
Proof.
  intros Hs Ho He Hp Hproc.
  rewrite navigateTo_past_open by (unfold early_open; by rewrite Ho).
  unfold navigate, bind, process_client. rewrite He, Hp, Hs.
  cbn [orb negb andb ret outcome final events].
  rewrite isProcessingMiddleware_spec. cbn [outcome final events].
  assert (processing w = true) as ->.
  { unfold processing. destruct Hproc as [-> | ->];
      [apply orb_true_r | reflexivity]. }
  reflexivity.
Qed.

Lemma navigateTo_early_redirect_witness :
  @navigateTo sample_ufo sample_host production
    (Some (LocString "/login")) None processing_world
  = mkRun (Return (NavTo (LocString "/login"))) processing_world [].
Proof.
  apply (@navigateTo_early_redirect sample_ufo sample_host);
    [reflexivity | reflexivity | reflexivity | reflexivity
    | left; reflexivity].
Defined.

(** C6 (as stated) fails when the [open] option is set: on the client,
    for a target that is not external and while middleware is being
    processed, a window is opened and a resolved promise is returned, not
    the target location. *)
Lemma navigateTo_open_during_middleware :
  processing processing_world = true
  /\ @hasProtocol sample_ufo "/login" = false
  /\ @navigateTo sample_ufo sample_host production
       (Some (LocString "/login")) (Some only_open) processing_world
     = mkRun (Return NavResolved) processing_world
         [EvOpen "/login" "_blank" ""].
Proof. repeat split. Qed.

(** C8 (as amended). On the server, with an SSR event at hand, for a call
    that passes the checks on external targets (no protocol without
    [external: true], no script protocol): the [app:redirected] hook is
    called first; when it has resolved, and only then, the redirect is
    sent for the event of the SSR context, to the path itself for an
    external target and otherwise to the base URL joined with the resolved
    full path (or [/] when that is empty), with the status
    [options.redirectCode] when that is given and not 0 and with 302
    otherwise. When the hook rejects, nothing is sent. *)
Theorem navigateTo_server_redirect `{Ufo} `{Host}
    (b : Build) (to : option RawLocation)
    (options : option NavigateToOptions) (w : World) (ev : H3Event) :
  side b = Server ->
  nuxtAppBound w = true ->
  ssrContext (nuxtApp w) ≫= event = Some ev ->
  let target_location := normalize_to to in
  let toPath := toPath_of target_location in
  (hasProtocol toPath = true -> opt_external options = true) ->
  (forall p, opt_external options = true ->
             parseURL_protocol toPath = Some p ->
             p <> "" -> isScriptProtocol p = false) ->
  let location :=
    if opt_external options || hasProtocol toPath then toPath
    else
      let resolved := resolve_fullPath (active_router w) target_location in
      joinURL (baseURL (nuxtApp w))
        (if decide (resolved = "") then "/" else resolved) in
  let code :=
    match options ≫= redirectCode with
    | Some c => if decide (c = 0) then 302 else c
    | None => 302
    end in
  let hooked := hook "app:redirected" w in
  navigateTo b to options w =
  match hooked.1, ssrContext (nuxtApp hooked.2) with
  | Return _, Some context =>
      mkRun (Return NavRedirected) hooked.2
        [EvCallHook "app:redirected";
         EvSendRedirect (event context) location code]
  | Return _, None =>
      mkRun (Throw no_ssrContext) hooked.2 [EvCallHook "app:redirected"]
  | Throw e, _ => mkRun (Throw e) hooked.2 [EvCallHook "app:redirected"]
  end.
Proof.
  intros Hs Hb Hev target_location toPath Hopt Hscript location code hooked.
  rewrite navigateTo_past_open
    by (unfold early_open, import_meta_client; rewrite Hs;
        by destruct (opt_open options)).
  fold target_location. fold toPath.
  assert (opt_redirectCode options = code) as Hcode.
  { subst code. unfold opt_redirectCode. destruct options as [o|]; cbn;
      [|reflexivity].
    destruct (redirectCode o) as [c|]; [|reflexivity].
    destruct (decide (c = 0)) as [->|Hc]; [reflexivity|].
    by apply Z.eqb_neq in Hc as ->. }
  assert ((if opt_external options || hasProtocol toPath
           then check_external options toPath else ret tt) w
          = mkRun (Return tt) w []) as Hcheck.
  { destruct (opt_external options || hasProtocol toPath) eqn:Hx;
      [|reflexivity].
    assert (opt_external options = true) as He.
    { apply orb_true_iff in Hx as [?|?]; auto. }
    unfold check_external. rewrite He. cbn [negb].
    destruct (parseURL_protocol toPath) as [p|] eqn:Hp; [|reflexivity].
    destruct (decide (p = "")) as [->|Hne]; [reflexivity|].
    rewrite (Hscript p He eq_refl Hne). by rewrite andb_false_r. }
  unfold navigate, bind. rewrite Hcheck. cbn [outcome final events].
  unfold process_client, process_server. rewrite Hs.
  cbn [andb ret outcome final events].
  rewrite (useRouter_bound w Hb). cbn [outcome final events].
  rewrite (useNuxtApp_bound w Hb). cbn [outcome final events].
  rewrite Hev, Hcode.
  unfold callHook, bind, emit, lift, get. cbn [outcome final events].
  assert (or_string (Some (resolve_fullPath (active_router w) target_location))
            "/"
          = if decide (resolve_fullPath (active_router w) target_location = "")
            then "/"
            else resolve_fullPath (active_router w) target_location) as ->.
  { unfold or_string, truthy_string.
    destruct (decide (_ = "")) as [->|Hne]; [reflexivity|].
    by apply String.eqb_neq in Hne as ->. }
  subst hooked location.
  destruct (hook "app:redirected" w) as [[[]|e] w'];
    cbn [fst snd outcome final events]; [|reflexivity].
  destruct (ssrContext (nuxtApp w')); reflexivity.
Qed.

Lemma navigateTo_server_redirect_witness :
  @navigateTo sample_ufo sample_host server (Some (LocString "/dashboard"))
    (Some moved_permanently) sample_server_world
  = mkRun (Return NavRedirected) sample_server_world
      [EvCallHook "app:redirected";
       EvSendRedirect (Some (mkH3Event 7)) "/app/dashboard" 301].
Proof.
  refine (@navigateTo_server_redirect sample_ufo sample_host server
            (Some (LocString "/dashboard")) (Some moved_permanently)
            sample_server_world (mkH3Event 7) eq_refl eq_refl eq_refl _ _).
  - discriminate.
  - intros p He. discriminate He.
Defined.

(** C8 (as stated) fails on the server, with an SSR event at hand: a call
    for a URL with a protocol and without [external: true] throws and sends
    no redirect; a [redirectCode] of 0 is sent as 302; and when the hook
    rejects no redirect is sent. *)
Lemma navigateTo_server_without_redirect :
  @navigateTo sample_ufo sample_host server
    (Some (LocString "https://example.com")) None sample_server_world
  = mkRun (Throw not_allowed) sample_server_world []
  /\ @navigateTo sample_ufo sample_host server (Some (LocString "/dashboard"))
       (Some (mkNavigateToOptions None (Some 0) None None)) sample_server_world
     = mkRun (Return NavRedirected) sample_server_world
         [EvCallHook "app:redirected";
          EvSendRedirect (Some (mkH3Event 7)) "/app/dashboard" 302]
  /\ @navigateTo sample_ufo rejecting_host server
       (Some (LocString "/dashboard")) None sample_server_world
     = mkRun (Throw (VError (PlainError "hook failed"))) sample_server_world
         [EvCallHook "app:redirected"].
Proof. repeat split. Qed.

(** ** abortNavigation *)

(** C7 (as amended). In development mode, a call while no middleware is
    being processed throws the usage error and does nothing else.
    Otherwise, for an error argument that is an object or a string that is
    not empty, the error is created; when the created error is fatal the
    application is reached for and [showError] is called with it, and
    [showError] is called in no other case; then the created error is
    thrown. *)
Theorem abortNavigation_throws `{Host}
    (b : Build) (err : option ErrInput) (w : World) :
  (process_dev b = true -> processing w = false ->
   abortNavigation b err w = mkRun (Throw only_in_middleware) w [])
  /\ (forall e, given_err err = Some e ->
      process_dev b = false \/ processing w = true ->
      (fatal (createError e) = true -> nuxtAppBound w = true) ->
      let created := createError e in
      let r := abortNavigation b err w in
      outcome r = Throw (VError (NuxtErr created))
      /\ events r = (if fatal created then [EvShowError created] else [])
      /\ (EvShowError created ∈ events r <-> fatal created = true)
      /\ final r = w).
Proof.
  split.
  - intros Hd Hp. unfold abortNavigation, bind. rewrite Hd.
    rewrite isProcessingMiddleware_spec. cbn [outcome final events].
    rewrite Hp. reflexivity.
  - intros e He Hmode Hbound created r.
    assert (r = if fatal created
                then mkRun (Throw (VError (NuxtErr created))) w
                       [EvShowError created]
                else mkRun (Throw (VError (NuxtErr created))) w []) as ->.
    { assert (nuxtAppBound w = true -> bind_app w = w) as Hw.
      { intros Hf. destruct w as [ci bd app hooks]. cbn in *.
        unfold bind_app. cbn. by rewrite Hf. }
      subst r. unfold abortNavigation.
      destruct (process_dev b) eqn:Hd.
      - destruct Hmode as [?|Hp]; [discriminate|].
        unfold bind. rewrite isProcessingMiddleware_spec.
        cbn [outcome final events ret]. rewrite Hp. cbn [negb].
        rewrite He. fold created.
        destruct (fatal created) eqn:Hf; [|reflexivity].
        cbn [outcome final events].
        rewrite (useNuxtApp_bound w (Hbound Hf)).
        unfold callWithNuxt, showError, bind, modify, emit, throw.
        cbn [outcome final events]. by rewrite (Hw (Hbound Hf)).
      - unfold bind. cbn [outcome final events ret].
        rewrite He. fold created.
        destruct (fatal created) eqn:Hf; [|reflexivity].
        cbn [outcome final events].
        rewrite (useNuxtApp_bound w (Hbound Hf)).
        unfold callWithNuxt, showError, bind, modify, emit, throw.
        cbn [outcome final events]. by rewrite (Hw (Hbound Hf)). }
    destruct (fatal created); cbn [outcome final events]; split_and!;
      try reflexivity.
    + split; [done | intros _; by apply list_elem_of_singleton].
    + split; [intros Hin; by apply not_elem_of_nil in Hin | discriminate].
Qed.

Lemma abortNavigation_throws_witness :
  @abortNavigation sample_host (mkBuild Client true) None sample_world
  = mkRun (Throw only_in_middleware) sample_world []
  /\ events (@abortNavigation sample_host production (Some fatal_error)
               sample_world)
     = [EvShowError (mkNuxtError "gone" 410 true)]
  /\ outcome (@abortNavigation sample_host (mkBuild Client true)
                (Some (ErrString "forbidden")) processing_world)
     = Throw (VError (NuxtErr (mkNuxtError "forbidden" 500 false))).
Proof.
  split_and!.
  - apply (@abortNavigation_throws sample_host (mkBuild Client true) None
             sample_world); reflexivity.
  - refine (proj1 (proj2 (proj2 (@abortNavigation_throws sample_host production
             (Some fatal_error) sample_world) fatal_error eq_refl
             (or_introl eq_refl) (fun _ => eq_refl)))).
  - refine (proj1 (proj2 (@abortNavigation_throws sample_host
             (mkBuild Client true) (Some (ErrString "forbidden"))
             processing_world) (ErrString "forbidden") eq_refl
             (or_intror eq_refl) _)).
    discriminate.
Defined.

(** C7 (as stated) fails for the empty string as the error argument: no
    error is created or thrown, the call returns [false]. It also fails
    for a fatal error when no application can be reached: the error thrown
    is not the created one and [showError] is not called. *)
Lemma abortNavigation_without_throwing :
  @abortNavigation sample_host production (Some (ErrString "")) sample_world
  = mkRun (Return (VBool false)) sample_world []
  /\ fatal (sample_createError fatal_error) = true
  /\ @abortNavigation sample_host production (Some fatal_error) unbound_world
     = mkRun (Throw unavailable) unbound_world [].
Proof. repeat split. Qed.

(** ** useRouter and useRoute *)

Section Resolution.
Variable w : World.

Lemma useRouter_in_component i :
  currentInstance w = Some i ->
  useRouter w = mkRun (Return (inst_router i)) w [].
Proof. intros Hi. unfold useRouter, bind, get. cbn. by rewrite Hi. Qed.

Lemma useRoute_in_component i :
  currentInstance w = Some i ->
  useRoute w = mkRun (Return (inst_route i)) w [].
Proof. intros Hi. unfold useRoute, bind, get. cbn. by rewrite Hi. Qed.

Hypothesis no_instance : currentInstance w = None.
Hypothesis bound : nuxtAppBound w = true.

Lemma useRouter_legacy :
  useRouter w = mkRun (Return (app_router (nuxtApp w))) w [].
Proof.
  rewrite (useRouter_bound w bound). unfold active_router.
  by rewrite no_instance.
Qed.

Lemma useRoute_mirrored m :
  _route (nuxtApp w) = Some m ->
  useRoute w = mkRun (Return m) w [].
Proof.
  intros Hm. unfold useRoute, bind, get. cbn [outcome final events].
  rewrite no_instance, (useNuxtApp_bound w bound).
  cbn [outcome final events]. by rewrite Hm.
Qed.

(** The world after the first access outside a component. *)
Let mirrored : World :=
  add_afterEach (app_router (nuxtApp w)) AssignToMirror
    (with_app (set_route (Some (context_route (nuxtApp w))))
       (with_app define__route w)).

Lemma useRoute_first :
  _route (nuxtApp w) = None ->
  __route (nuxtApp w) = false ->
  useRoute w
  = mkRun (Return (context_route (nuxtApp w))) mirrored
      [EvReactive (context_route (nuxtApp w));
       EvAfterEach (app_router (nuxtApp w))].
Proof.
  intros Hm Hg. unfold useRoute, bind, get. cbn [outcome final events].
  rewrite no_instance, (useNuxtApp_bound w bound).
  cbn [outcome final events]. rewrite Hm.
  unfold defineProperty__route, bind, get. cbn [outcome final events].
  rewrite Hg.
  unfold update_app, modify, reactive, bind, emit, ret.
  cbn [outcome final events].
  unfold useRouter, bind, get. cbn [outcome final events].
  change (currentInstance (with_app _ (with_app _ w)))
    with (currentInstance w).
  rewrite no_instance.
  rewrite useNuxtApp_bound by exact bound.
  reflexivity.
Qed.

(** An application that has the getter but no mirror (the mirror was taken
    away after an access): the getter cannot be defined again, and the
    access throws before it makes anything. *)
Lemma useRoute_cannot_redefine :
  _route (nuxtApp w) = None ->
  __route (nuxtApp w) = true ->
  useRoute w = mkRun (Throw cannot_redefine) w [].
Proof.
  intros Hm Hg. unfold useRoute, bind, get. cbn [outcome final events].
  rewrite no_instance, (useNuxtApp_bound w bound).
  cbn [outcome final events]. rewrite Hm.
  unfold defineProperty__route, bind, get. cbn [outcome final events].
  by rewrite Hg.
Qed.

(** Any number of later accesses find the mirror and leave everything
    as it is. *)
Lemma useRoute_later m n :
  _route (nuxtApp w) = Some m ->
  repeat_run useRoute n w = replicate n (mkRun (Return m) w []).
Proof.
  intros Hm. induction n as [|n IH]; [reflexivity|].
  cbn [repeat_run replicate]. rewrite (useRoute_mirrored m Hm).
  cbn [final]. by rewrite IH.
Qed.
End Resolution.

(** The hook installed at the first access copies a new route into the
    mirror that is there: an access after it creates nothing. *)
Lemma useRoute_after_navigation w r :
  currentInstance w = None ->
  nuxtAppBound w = true ->
  let w' := final (run_hook AssignToMirror r w) in
  useRoute w' = mkRun (Return r) w' [].
Proof.
  intros Hi Hb w'. by apply useRoute_mirrored.
Qed.

(** C9. Inside a component (an instance is active) [useRouter] and
    [useRoute] give the router and route of vue-router's composables.
    Outside, they give the legacy ones of the application: [useRouter] its
    router; [useRoute] the reactive mirror of its route, which the first
    access (there is no mirror, and no getter has been defined yet)
    creates with one [reactive] call and one [afterEach] hook and stores
    in [_route], and which every later access returns as stored, creating
    nothing. *)
Theorem useRouter_useRoute_resolution (w : World) :
  (forall i, currentInstance w = Some i ->
     useRouter w = mkRun (Return (inst_router i)) w []
     /\ useRoute w = mkRun (Return (inst_route i)) w [])
  /\ (currentInstance w = None -> nuxtAppBound w = true ->
      useRouter w = mkRun (Return (app_router (nuxtApp w))) w []
      /\ (forall m, _route (nuxtApp w) = Some m ->
            useRoute w = mkRun (Return m) w [])
      /\ (_route (nuxtApp w) = None -> __route (nuxtApp w) = false ->
          let first := useRoute w in
          let mirror := context_route (nuxtApp w) in
          outcome first = Return mirror
          /\ events first
             = [EvReactive mirror; EvAfterEach (app_router (nuxtApp w))]
          /\ _route (nuxtApp (final first)) = Some mirror
          /\ afterEach (final first)
             = afterEach w ++ [(app_router (nuxtApp w), AssignToMirror)]
          /\ forall n,
               repeat_run useRoute n (final first)
               = replicate n (mkRun (Return mirror) (final first) []))).
Proof.
  split.
  - intros i Hi. split;
      [by apply useRouter_in_component | by apply useRoute_in_component].
  - intros Hi Hb. split_and!.
    + by apply useRouter_legacy.
    + intros m Hm. by apply useRoute_mirrored.
    + intros Hm Hg first mirror. subst first mirror.
      rewrite (useRoute_first w Hi Hb Hm Hg). cbn [outcome final events].
      split_and!; try reflexivity.
      intros n. by apply useRoute_later.
Qed.

Lemma useRouter_useRoute_resolution_witness :
  useRouter component_world = mkRun (Return (mkRouter 2)) component_world []
  /\ useRouter sample_world = mkRun (Return (mkRouter 1)) sample_world []
  /\ events (useRoute sample_world)
     = [EvReactive (mkRoute "/" [] "" "/"); EvAfterEach (mkRouter 1)]
  /\ repeat_run useRoute 2 (final (useRoute sample_world))
     = replicate 2 (mkRun (Return (mkRoute "/" [] "" "/"))
                      (final (useRoute sample_world)) []).
Proof.
  destruct (useRouter_useRoute_resolution component_world) as [Hc _].
  destruct (useRouter_useRoute_resolution sample_world) as [_ Hl].
  destruct (Hc _ eq_refl) as [Hrouter _].
  destruct (Hl eq_refl eq_refl) as (Hlegacy & _ & Hfirst).
  destruct (Hfirst eq_refl eq_refl) as (_ & Hev & _ & _ & Hlater).
  split_and!; [exact Hrouter | exact Hlegacy | exact Hev | exact (Hlater 2%nat)].
Defined.

(** * Further properties of the module *)

(** ** isProcessingMiddleware *)

(** X1. [isProcessingMiddleware] never throws, changes nothing and calls
    nothing outside; it answers [true] exactly when the flag on the
    application is truthy or no application can be reached. *)
Theorem isProcessingMiddleware_answer (w : World) :
  exists answer : bool,
    isProcessingMiddleware w = mkRun (Return answer) w []
    /\ (answer = true <->
        truthy_flag (_processingMiddleware (nuxtApp w)) = true
        \/ nuxtAppBound w = false).
Proof.
  exists (processing w). split; [apply isProcessingMiddleware_spec|].
  unfold processing. rewrite orb_true_iff, negb_true_iff. tauto.
Qed.

(** ** The target of navigateTo *)

(** X2. A missing target ([undefined] or [null]) and the empty string are
    navigated to as [/]. *)
Theorem navigateTo_falsy_target `{Ufo} `{Host}
    (b : Build) (options : option NavigateToOptions) (w : World) :
  navigateTo b None options w
  = navigateTo b (Some (LocString "/")) options w
  /\ navigateTo b (Some (LocString "")) options w
     = navigateTo b (Some (LocString "/")) options w.
Proof. split; reflexivity. Qed.

(** ** The features of an opened window *)

(** X3. An entry of [windowFeatures] whose value is [undefined] leaves no
    trace in the features string, wherever it stands; when every value is
    [undefined] (or there is no entry) the string is empty. *)
Theorem format_features_skips_undefined
    (before after : OpenWindowFeatures) (feature : string) :
  format_features (before ++ (feature, None) :: after)
  = format_features (before ++ after)
  /\ (forall wf : OpenWindowFeatures,
        Forall (fun e => e.2 = None) wf -> format_features wf = "").
Proof.
  split.
  - unfold format_features. rewrite !omap_app. reflexivity.
  - intros wf Hall. unfold format_features.
    induction Hall as [|[k v] wf Hv _ IH]; [reflexivity|].
    cbn in Hv. subst v. exact IH.
Qed.

(** ** navigateTo on the server *)

Section Checks.
Context `{Ufo} `{Host}.
Variables (options : option NavigateToOptions) (toPath : string).

Lemma checks_passed w :
  passes_checks options toPath = true ->
  (if opt_external options || hasProtocol toPath
   then check_external options toPath else ret tt) w
  = mkRun (Return tt) w [].
Proof.
  unfold passes_checks, check_external.
  destruct (opt_external options || hasProtocol toPath); [|reflexivity].
  destruct (opt_external options); [|discriminate]. cbn [andb negb].
  destruct (parseURL_protocol toPath) as [p|]; [|reflexivity].
  by intros ->%negb_true_iff.
Qed.

Lemma checks_failed w :
  passes_checks options toPath = false ->
  exists e,
    (if opt_external options || hasProtocol toPath
     then check_external options toPath else ret tt) w
    = mkRun (Throw e) w [].
Proof.
  unfold passes_checks, check_external.
  destruct (opt_external options || hasProtocol toPath); [|discriminate].
  destruct (opt_external options); cbn [andb negb]; [|by eexists].
  destruct (parseURL_protocol toPath) as [p|]; [|discriminate].
  intros ->%negb_false_iff. by eexists.
Qed.
End Checks.

Lemma navigate_without_open `{Ufo} `{Host} b options to toPath :
  navigate b (without_open options) to toPath = navigate b options to toPath.
Proof. by destruct options as [[rp rc ex op]|]. Qed.

(** X4. On the server the [open] option has no effect: a call with it runs
    as the same call without it. *)
Theorem navigateTo_open_ignored_on_server `{Ufo} `{Host}
    (b : Build) (to : option RawLocation)
    (options : option NavigateToOptions) (w : World) :
  side b = Server ->
  navigateTo b to options w = navigateTo b to (without_open options) w.
Proof.
  intros Hs. unfold navigateTo, import_meta_client. rewrite Hs.
  rewrite navigate_without_open.
  assert (opt_open (without_open options) = None) as ->
    by (by destruct options).
  by destruct (opt_open options).
Qed.

Lemma navigateTo_open_ignored_on_server_witness :
  @navigateTo sample_ufo sample_host server (Some (LocString "/dashboard"))
    (Some (mkNavigateToOptions None (Some 301) None (Some popup)))
    sample_server_world
  = mkRun (Return NavRedirected) sample_server_world
      [EvCallHook "app:redirected";
       EvSendRedirect (Some (mkH3Event 7)) "/app/dashboard" 301].
Proof.
  rewrite (@navigateTo_open_ignored_on_server sample_ufo sample_host server
             (Some (LocString "/dashboard"))
             (Some (mkNavigateToOptions None (Some 301) None (Some popup)))
             sample_server_world eq_refl).
  reflexivity.
Defined.

Lemma format_features_skips_undefined_witness :
  format_features
    ([("popup", Some (FvBool true))] ++ ("left", None)
       :: [("width", Some (FvNumber (mkNumber "100")))])
  = "popup=true, width=100"
  /\ format_features [("left", None); ("top", None)] = "".
Proof.
  destruct (format_features_skips_undefined [("popup", Some (FvBool true))]
              [("width", Some (FvNumber (mkNumber "100")))] "left") as [Hskip Hnone].
  split.
  - rewrite Hskip. reflexivity.
  - apply Hnone. repeat constructor.
Defined.

(** ** navigateTo past the checks *)

Lemma useRouter_cases w :
  useRouter w = mkRun (Return (active_router w)) w []
  \/ (currentInstance w = None /\ nuxtAppBound w = false
      /\ useRouter w = mkRun (Throw unavailable) w []).
Proof.
  unfold useRouter, active_router, bind, get, useNuxtApp.
  cbn [outcome final events].
  destruct (currentInstance w); [by left|].
  destruct (nuxtAppBound w); [by left|]. right. by split_and!.
Qed.

Section PastChecks.
Context `{Ufo} `{Host}.
Variables (b : Build) (options : option NavigateToOptions)
          (to : RawLocation) (toPath : string) (w : World).

Let isExternal := opt_external options || hasProtocol toPath.

Hypothesis passed : passes_checks options toPath = true.

Lemma navigate_on_client :
  side b = Client ->
  navigate b options to toPath w =
  if negb isExternal && processing w then mkRun (Return (NavTo to)) w []
  else bind useRouter (client_redirection options isExternal to toPath) w.
Proof.
  intros Hs. unfold navigate, bind.
  rewrite (checks_passed options toPath w passed).
  cbn [outcome final events].
  unfold process_client, process_server. rewrite Hs. fold isExternal.
  destruct isExternal; cbn [negb andb ret outcome final events].
  - destruct (useRouter w) as [[r|e] w' evs];
      cbn [outcome final events]; [|reflexivity].
    by destruct (client_redirection _ _ _ _ _ w').
  - rewrite isProcessingMiddleware_spec. cbn [outcome final events].
    destruct (processing w); [reflexivity|].
    destruct (useRouter w) as [[r|e] w' evs];
      cbn [outcome final events]; [|reflexivity].
    by destruct (client_redirection _ _ _ _ _ w').
Qed.

Lemma navigate_on_server_without_event :
  side b = Server ->
  nuxtAppBound w = true ->
  ssrContext (nuxtApp w) ≫= event = None ->
  navigate b options to toPath w
  = client_redirection options isExternal to toPath (active_router w) w.
Proof.
  intros Hs Hb Hev. unfold navigate, bind.
  rewrite (checks_passed options toPath w passed).
  cbn [outcome final events].
  unfold process_client, process_server. rewrite Hs.
  cbn [andb ret outcome final events].
  rewrite (useRouter_bound w Hb). cbn [outcome final events].
  rewrite (useNuxtApp_bound w Hb). cbn [outcome final events].
  rewrite Hev. fold isExternal.
  by destruct (client_redirection _ _ _ _ _ w) as [c w' evs].
Qed.
End PastChecks.

Lemma navigate_rejected `{Ufo} `{Host} b options to toPath w :
  passes_checks options toPath = false ->
  exists e, navigate b options to toPath w = mkRun (Throw e) w [].
Proof.
  intros Hf. destruct (checks_failed options toPath w Hf) as [e He].
  exists e. unfold navigate, bind. by rewrite He.
Qed.

(** ** navigateTo on the client *)

(** X5. On the client, outside of middleware processing (the application
    is reachable and its flag is not set), a call without the [open]
    option for a target that is not external asks the router exactly once:
    [replace] with the [replace] option, [push] without it, on the router
    that [useRouter] gives and with the normalized target. The world is
    left as it was. *)
Theorem navigateTo_asks_router `{Ufo} `{Host}
    (b : Build) (to : option RawLocation)
    (options : option NavigateToOptions) (w : World) :
  side b = Client ->
  opt_open options = None ->
  opt_external options = false ->
  hasProtocol (toPath_of (normalize_to to)) = false ->
  nuxtAppBound w = true ->
  truthy_flag (_processingMiddleware (nuxtApp w)) = false ->
  navigateTo b to options w
  = mkRun (Return NavRouter) w
      [if opt_replace options
       then EvRouterReplace (active_router w) (normalize_to to)
       else EvRouterPush (active_router w) (normalize_to to)].
Proof.
  intros Hs Ho He Hp Hb Hf.
  rewrite navigateTo_past_open by (unfold early_open; by rewrite Ho).
  rewrite navigate_on_client;
    [|unfold passes_checks; by rewrite He, Hp|exact Hs].
  unfold processing. rewrite He, Hp, Hb, Hf. cbn [negb orb andb].
  unfold bind. rewrite (useRouter_bound w Hb). cbn [outcome final events].
  unfold client_redirection, bind, emit, ret.
  by destruct (opt_replace options).
Qed.

Lemma navigateTo_asks_router_witness :
  @navigateTo sample_ufo sample_host production (Some (LocString "/about"))
    (Some (mkNavigateToOptions (Some true) None None None)) sample_world
  = mkRun (Return NavRouter) sample_world
      [EvRouterReplace (mkRouter 1) (LocString "/about")].
Proof.
  apply (@navigateTo_asks_router sample_ufo sample_host production
           (Some (LocString "/about"))
           (Some (mkNavigateToOptions (Some true) None None None))
           sample_world); reflexivity.
Defined.



(** X7. The router is looked up before the external target is gone to: on
    the client, outside of a component and with no application reachable,
    an external navigation that passed the checks throws the exception of
    [useNuxtApp] and the location of the window is not touched. *)
Theorem navigateTo_external_without_router `{Ufo} `{Host}
    (b : Build) (to : option RawLocation)
    (options : option NavigateToOptions) (w : World) :
  side b = Client ->
  opt_open options = None ->
  opt_external options = true ->
  passes_checks options (toPath_of (normalize_to to)) = true ->
  currentInstance w = None ->
  nuxtAppBound w = false ->
  navigateTo b to options w = mkRun (Throw unavailable) w [].
Proof.
  intros Hs Ho He Hpass Hi Hb.
  rewrite navigateTo_past_open by (unfold early_open; by rewrite Ho).
  rewrite navigate_on_client by assumption.
  rewrite He. cbn [negb orb andb]. unfold bind.
  destruct (useRouter_cases w) as [Hr | (_ & _ & ->)]; [|reflexivity].
  exfalso. revert Hr. unfold useRouter, bind, get, useNuxtApp.
  cbn [outcome final events]. rewrite Hi, Hb. discriminate.
Qed.

Lemma navigateTo_external_without_router_witness :
  @navigateTo sample_ufo sample_host production
    (Some (LocString "https://example.com"))
    (Some (mkNavigateToOptions None None (Some true) None)) unbound_world
  = mkRun (Throw unavailable) unbound_world [].
Proof.
  apply (@navigateTo_external_without_router sample_ufo sample_host);
    reflexivity.
Defined.

(** X8. On the server without an SSR event (no SSR context, or a context
    without event) a call that passes the checks falls through to the
    client-side redirection: no hook is called and no redirect is sent; an
    external target goes through the location of the window, any other
    through the router. *)
Theorem navigateTo_server_without_event `{Ufo} `{Host}
    (b : Build) (to : option RawLocation)
    (options : option NavigateToOptions) (w : World) :
  side b = Server ->
  nuxtAppBound w = true ->
  ssrContext (nuxtApp w) ≫= event = None ->
  let target_location := normalize_to to in
  let toPath := toPath_of target_location in
  passes_checks options toPath = true ->
  navigateTo b to options w =
  if opt_external options || hasProtocol toPath then
    mkRun (Return NavResolved) w
      [if opt_replace options then EvLocationReplace toPath
       else EvLocationHref toPath]
  else
    mkRun (Return NavRouter) w
      [if opt_replace options
       then EvRouterReplace (active_router w) target_location
       else EvRouterPush (active_router w) target_location].
Proof.
  intros Hs Hb Hev target_location toPath Hpass.
  rewrite navigateTo_past_open
    by (unfold early_open, import_meta_client; rewrite Hs;
        by destruct (opt_open options)).
  fold target_location. fold toPath.
  rewrite navigate_on_server_without_event by assumption.
  unfold client_redirection, bind, emit, ret.
  by destruct (opt_external options || hasProtocol toPath),
       (opt_replace options).
Qed.

Lemma navigateTo_server_without_event_witness :
  @navigateTo sample_ufo sample_host server (Some (LocString "/dashboard"))
    None sample_world
  = mkRun (Return NavRouter) sample_world
      [EvRouterPush (mkRouter 1) (LocString "/dashboard")].
Proof.
  apply (@navigateTo_server_without_event sample_ufo sample_host server
           (Some (LocString "/dashboard")) None sample_world);
    reflexivity.
Defined.

(** X9. On the client [navigateTo] leaves the world as it was, whatever
    the target and the options; it makes at most one call outside the
    module, and never calls a hook of the application or sends a
    redirect. *)
Theorem navigateTo_client_footprint `{Ufo} `{Host}
    (b : Build) (to : option RawLocation)
    (options : option NavigateToOptions) (w : World) :
  side b = Client ->
  let r := navigateTo b to options w in
  final r = w
  /\ (length (events r) <= 1)%nat
  /\ Forall (fun e => match e with
                      | EvCallHook _ | EvSendRedirect _ _ _ => False
                      | _ => True
                      end) (events r).
Proof.
  intros Hs r. subst r.
  destruct (opt_open options) as [o|] eqn:Ho.
  - unfold navigateTo, import_meta_client. rewrite Ho, Hs.
    cbn. split_and!; [done | lia | by repeat constructor].
  - rewrite navigateTo_past_open by (unfold early_open; by rewrite Ho).
    destruct (passes_checks options (toPath_of (normalize_to to))) eqn:Hpass.
    + rewrite navigate_on_client by assumption.
      destruct (negb _ && processing w).
      { cbn. split_and!; [done | lia | constructor]. }
      unfold bind.
      destruct (useRouter_cases w) as [-> | (_ & _ & ->)];
        cbn [outcome final events].
      * unfold client_redirection, bind, emit, ret.
        destruct (opt_external options || hasProtocol _),
          (opt_replace options); cbn;
          (split_and!; [done | lia | by repeat constructor]).
      * cbn. split_and!; [done | lia | constructor].
    + destruct (navigate_rejected b options (normalize_to to)
                  (toPath_of (normalize_to to)) w Hpass) as [e ->].
      cbn. split_and!; [done | lia | constructor].
Qed.

Lemma navigateTo_client_footprint_witness :
  final (@navigateTo sample_ufo sample_host production
           (Some (LocString "https://example.com"))
           (Some (mkNavigateToOptions None None (Some true) None))
           sample_world)
  = sample_world.
Proof.
  exact (proj1 (@navigateTo_client_footprint sample_ufo sample_host production
                  (Some (LocString "https://example.com"))
                  (Some (mkNavigateToOptions None None (Some true) None))
                  sample_world eq_refl)).
Defined.

(** ** abortNavigation *)

(** [abortNavigation] past the development check. *)
Lemma abortNavigation_past_guard `{Host} b err w :
  process_dev b = false \/ processing w = true ->
  abortNavigation b err w =
  match given_err err with
  | None => mkRun (Return (VBool false)) w []
  | Some e =>
      if fatal (createError e) then
        if nuxtAppBound w
        then mkRun (Throw (VError (NuxtErr (createError e)))) w
               [EvShowError (createError e)]
        else mkRun (Throw unavailable) w []
      else mkRun (Throw (VError (NuxtErr (createError e)))) w []
  end.
Proof.
  intros Hmode.
  assert (nuxtAppBound w = true -> bind_app w = w) as Hw.
  { intros Hb. destruct w as [ci bd app hooks]. cbn in *.
    unfold bind_app. cbn. by rewrite Hb. }
  unfold abortNavigation.
  destruct (process_dev b) eqn:Hd.
  - destruct Hmode as [?|Hp]; [discriminate|].
    unfold bind. rewrite isProcessingMiddleware_spec.
    cbn [outcome final events ret]. rewrite Hp. cbn [negb].
    destruct (given_err err) as [e|]; [|reflexivity].
    destruct (fatal (createError e)); [|reflexivity].
    cbn [outcome final events]. unfold useNuxtApp.
    destruct (nuxtAppBound w) eqn:Hb; [|reflexivity].
    unfold callWithNuxt, showError, bind, modify, emit, throw.
    cbn [outcome final events]. by rewrite (Hw eq_refl).
  - unfold bind. cbn [outcome final events ret].
    destruct (given_err err) as [e|]; [|reflexivity].
    destruct (fatal (createError e)); [|reflexivity].
    cbn [outcome final events]. unfold useNuxtApp.
    destruct (nuxtAppBound w) eqn:Hb; [|reflexivity].
    unfold callWithNuxt, showError, bind, modify, emit, throw.
    cbn [outcome final events]. by rewrite (Hw eq_refl).
Qed.

(** X10. Called without an error (no argument, or the empty string),
    [abortNavigation] returns [false] and does nothing else, unless it is
    development mode outside of middleware processing. *)
Theorem abortNavigation_without_error `{Host}
    (b : Build) (err : option ErrInput) (w : World) :
  given_err err = None ->
  process_dev b = false \/ processing w = true ->
  abortNavigation b err w = mkRun (Return (VBool false)) w [].
Proof.
  intros Hg Hmode. rewrite abortNavigation_past_guard by exact Hmode.
  by rewrite Hg.
Qed.

Lemma abortNavigation_without_error_witness :
  @abortNavigation sample_host (mkBuild Client true) None processing_world
  = mkRun (Return (VBool false)) processing_world [].
Proof.
  apply (@abortNavigation_without_error sample_host);
    [reflexivity | right; reflexivity].
Defined.

(** ** The adapted middleware *)

(** X11. When the awaited middleware throws, the adapted middleware
    rejects with the same exception: it calls neither [ctx.error] nor
    [ctx.redirect], adds no call to those of the middleware, and leaves
    the world as the middleware left it. *)
Theorem convertToLegacyMiddleware_rethrows
    (middleware : Middleware) (ctx : Ctx) (w : World) (e : JsValue) :
  outcome (middleware_run middleware ctx w) = Throw e ->
  let awaited := middleware_run middleware ctx w in
  let adapted := convertToLegacyMiddleware middleware ctx w in
  outcome adapted = Throw e
  /\ events adapted = events awaited
  /\ final adapted = final awaited.
Proof.
  intros He awaited adapted. subst adapted awaited.
  by rewrite (adapted_throw middleware ctx w e He).
Qed.

Lemma convertToLegacyMiddleware_rethrows_witness :
  outcome (convertToLegacyMiddleware (@middleware_of sample_host 2)
             sample_ctx sample_world)
  = Throw (VError (PlainError "denied")).
Proof.
  exact (proj1 (convertToLegacyMiddleware_rethrows (@middleware_of sample_host 2)
                  sample_ctx sample_world (VError (PlainError "denied"))
                  eq_refl)).
Defined.

(** X12. The flag is removed, not restored, and it is removed before the
    legacy callbacks run: when the awaited middleware has returned, the
    callback ([ctx.error] for an [Error], [ctx.redirect] for another truthy
    value) starts in the world the middleware left with the flag deleted,
    whatever the flag was before the adapted middleware was called, and
    what it returns is what the adapted middleware returns. *)
Theorem convertToLegacyMiddleware_callbacks_after_delete
    (middleware : Middleware) (ctx : Ctx) (w : World) (result : JsValue) :
  outcome (middleware_run middleware ctx w) = Return result ->
  truthy result = true ->
  let awaited := middleware_run middleware ctx w in
  let adapted := convertToLegacyMiddleware middleware ctx w in
  let cleared := with_app (set_processing None) (final awaited) in
  let callback := if instanceof_Error result then error ctx else redirect ctx in
  _processingMiddleware (nuxtApp cleared) = None
  /\ outcome adapted = (callback result cleared).1
  /\ final adapted = (callback result cleared).2.
Proof.
  intros Hr Ht awaited adapted cleared callback.
  split; [reflexivity|].
  destruct (instanceof_Error result) eqn:He.
  - destruct (adapted_error middleware ctx w result Hr He) as (Ho & Hf & _).
    subst adapted callback cleared awaited. rewrite Ho, Hf.
    unfold callback_run. by destruct (error ctx result _).
  - destruct (adapted_redirect middleware ctx w result Hr He Ht)
      as (Ho & Hf & _).
    subst adapted callback cleared awaited. rewrite Ho, Hf.
    unfold callback_run. by destruct (redirect ctx result _).
Qed.

Lemma convertToLegacyMiddleware_callbacks_after_delete_witness :
  final (convertToLegacyMiddleware (@middleware_of sample_host 1)
           sample_ctx processing_world)
  = sample_world.
Proof.
  exact (proj2 (proj2
    (convertToLegacyMiddleware_callbacks_after_delete
       (@middleware_of sample_host 1) sample_ctx processing_world
       (VString "/login") eq_refl eq_refl))).
Defined.

(** ** The functions used together *)

Lemma normalized_truthy (to : option RawLocation) :
  instanceof_Error (location_value (normalize_to to)) = false
  /\ truthy (location_value (normalize_to to)) = true.
Proof.
  destruct to as [[s|l]|]; cbn; try done.
  unfold truthy_string. by destruct (String.eqb s "") eqn:Hs; cbn; rewrite ?Hs.
Qed.

(** X13. A middleware that returns [navigateTo(target)] for a target that
    is not external, adapted and run on the client: [navigateTo] hands the
    normalized location back, the router is not asked, and the adapter
    passes the location to [ctx.redirect], its only call. *)
Theorem adapted_navigateTo_redirects `{Ufo} `{Host}
    (settle : NavResult -> JsValue) (b : Build) (to : option RawLocation)
    (options : option NavigateToOptions) (ctx : Ctx) (w : World) :
  side b = Client ->
  opt_open options = None ->
  opt_external options = false ->
  hasProtocol (toPath_of (normalize_to to)) = false ->
  events (convertToLegacyMiddleware (returning_navigateTo settle b to options)
            ctx w)
  = [EvCtxRedirect (location_value (normalize_to to))].
Proof.
  intros Hs Ho He Hp.
  destruct (normalized_truthy to) as [Herr Htruthy].
  assert (middleware_run (returning_navigateTo settle b to options) ctx w
          = mkRun (Return (location_value (normalize_to to)))
              (bind_app (with_app (set_processing (Some true)) w)) []) as Hrun.
  { assert (navigateTo b to options
              (bind_app (with_app (set_processing (Some true)) w))
            = mkRun (Return (NavTo (normalize_to to)))
                (bind_app (with_app (set_processing (Some true)) w)) [])
      as Hnav.
    { rewrite navigateTo_past_open by (unfold early_open; by rewrite Ho).
      rewrite navigate_on_client;
        [|unfold passes_checks; by rewrite He, Hp|exact Hs].
      rewrite He, Hp. reflexivity. }
    unfold middleware_run, callWithNuxt, returning_navigateTo, bind, modify.
    cbn [outcome final events]. rewrite Hnav. reflexivity. }
  destruct (adapted_redirect (returning_navigateTo settle b to options) ctx w
              (location_value (normalize_to to))) as (_ & _ & ->);
    [by rewrite Hrun | exact Herr | exact Htruthy |].
  by rewrite Hrun.
Qed.

Lemma adapted_navigateTo_redirects_witness :
  events (convertToLegacyMiddleware
            (@returning_navigateTo sample_ufo sample_host
               (fun _ => VUndefined) production (Some (LocString "/login"))
               None)
            sample_ctx sample_world)
  = [EvCtxRedirect (VString "/login")].
Proof.
  apply (@adapted_navigateTo_redirects sample_ufo sample_host); reflexivity.
Defined.

Lemma abortNavigation_in_middleware `{Host} b err ctx w :
  middleware_run (returning_abortNavigation b err) ctx w
  = abortNavigation b err
      (bind_app (with_app (set_processing (Some true)) w)).
Proof.
  unfold middleware_run, callWithNuxt, returning_abortNavigation.
  unfold bind, modify. cbn [outcome final events].
  by destruct (abortNavigation b err _).
Qed.

(** X14. A middleware that calls [abortNavigation(err)] with an error,
    adapted and run in any build: the adapted middleware rejects with the
    created error; the error does not reach [ctx.error] (and nothing
    reaches [ctx.redirect]); [showError] is called exactly when the
    created error is fatal. *)
Theorem adapted_abortNavigation_rejects `{Host}
    (b : Build) (err : option ErrInput) (e : ErrInput) (ctx : Ctx)
    (w : World) :
  given_err err = Some e ->
  let adapted :=
    convertToLegacyMiddleware (returning_abortNavigation b err) ctx w in
  outcome adapted = Throw (VError (NuxtErr (createError e)))
  /\ events adapted
     = (if fatal (createError e) then [EvShowError (createError e)] else [])
  /\ filter is_ctx_call (events adapted) = [].
Proof.
  intros Hg adapted. subst adapted.
  pose proof (abortNavigation_in_middleware b err ctx w) as Hrun.
  rewrite abortNavigation_past_guard in Hrun by (right; reflexivity).
  rewrite Hg in Hrun. cbn [bind_app nuxtAppBound] in Hrun.
  rewrite (adapted_throw (returning_abortNavigation b err) ctx w
             (VError (NuxtErr (createError e))))
    by (rewrite Hrun; by destruct (fatal (createError e))).
  rewrite Hrun. by destruct (fatal (createError e)).
Qed.

Lemma adapted_abortNavigation_rejects_witness :
  events (convertToLegacyMiddleware
            (@returning_abortNavigation sample_host (mkBuild Client true)
               (Some fatal_error))
            sample_ctx sample_world)
  = [EvShowError (mkNuxtError "gone" 410 true)].
Proof.
  exact (proj1 (proj2
    (@adapted_abortNavigation_rejects sample_host (mkBuild Client true)
       (Some fatal_error) fatal_error sample_ctx sample_world eq_refl))).
Defined.

(** X15. A middleware that returns [abortNavigation()] without an error,
    adapted and run in any build: the adapted middleware returns [false],
    calls nothing, and the flag is gone when it returns. *)
Theorem adapted_abortNavigation_without_error `{Host}
    (b : Build) (err : option ErrInput) (ctx : Ctx) (w : World) :
  given_err err = None ->
  let adapted :=
    convertToLegacyMiddleware (returning_abortNavigation b err) ctx w in
  outcome adapted = Return (VBool false)
  /\ events adapted = []
  /\ _processingMiddleware (nuxtApp (final adapted)) = None.
Proof.
  intros Hg adapted. subst adapted.
  pose proof (abortNavigation_in_middleware b err ctx w) as Hrun.
  rewrite abortNavigation_past_guard in Hrun by (right; reflexivity).
  rewrite Hg in Hrun.
  rewrite (adapted_falsy (returning_abortNavigation b err) ctx w
             (VBool false)) by (by rewrite ?Hrun).
  by rewrite Hrun.
Qed.

Lemma adapted_abortNavigation_without_error_witness :
  outcome (convertToLegacyMiddleware
             (@returning_abortNavigation sample_host (mkBuild Client true)
                (Some (ErrString "")))
             sample_ctx sample_world)
  = Return (VBool false).
Proof.
  exact (proj1
    (@adapted_abortNavigation_without_error sample_host (mkBuild Client true)
       (Some (ErrString "")) sample_ctx sample_world eq_refl)).
Defined.

(** ** What the functions leave alone *)

(** X16. [useRouter] leaves the world as it was. [addRouteMiddleware]
    changes nothing but the two registries: the world it leaves is the
    former one with, at most, another global list and another named
    registry. [useRoute] changes nothing but the mirror, its getter and the
    hooks of the router: the world it leaves is the former one with, at
    most, these three replaced. The flag, the router, the legacy route, the
    SSR context, the base URL, the component instance and the binding of
    the application are out of reach of the three, however they end. *)
Theorem module_footprint (w : World) :
  final (useRouter w) = w
  /\ (forall name middleware options,
        exists globals named,
          final (addRouteMiddleware name middleware options w)
          = with_app (fun a => set_named named (set_global globals a)) w)
  /\ (exists mirror getter hooks,
        final (useRoute w)
        = mkWorld (currentInstance w) (nuxtAppBound w)
            (mkNuxtApp (_processingMiddleware (nuxtApp w))
               (_middleware_global (nuxtApp w))
               (_middleware_named (nuxtApp w))
               mirror getter
               (app_router (nuxtApp w)) (context_route (nuxtApp w))
               (ssrContext (nuxtApp w)) (baseURL (nuxtApp w)))
            hooks).
Proof.
  destruct w as [ci bd [flag globals named mirror getter router legacy ssr base]
                   hooks].
  split_and!.
  - unfold useRouter, bind, get, useNuxtApp. cbn.
    by destruct ci, bd.
  - intros name middleware options.
    unfold addRouteMiddleware, bind, useNuxtApp, update_app, modify. cbn.
    destruct bd; [|by exists globals, named].
    destruct name as [s|f]; [destruct (truthy_flag _)|].
    + by exists (globals ++ [fn_of middleware]), named.
    + by exists globals, (<[s := FnLegacy (fn_of middleware)]> named).
    + by exists (globals ++ [FnMiddleware f]), named.
  - unfold useRoute, defineProperty__route, bind, get, useNuxtApp. cbn.
    destruct ci as [i|]; cbn; [by exists mirror, getter, hooks|].
    destruct bd; cbn; [|by exists mirror, getter, hooks].
    destruct mirror as [m|]; cbn; [by exists (Some m), getter, hooks|].
    destruct getter; cbn; [by exists None, true, hooks|].
    by exists (Some legacy), true, (hooks ++ [(router, AssignToMirror)]).
Qed.

(** ** Registrations in a row *)

Lemma addRouteMiddleware_named s middleware options w :
  nuxtAppBound w = true ->
  opt_global options = false ->
  addRouteMiddleware (NameString s) middleware options w
  = mkRun (Return tt)
      (with_app (fun a =>
         set_named (<[s := FnLegacy (fn_of middleware)]> (_middleware_named a))
           a) w) [].
Proof.
  intros Hb Hg. unfold addRouteMiddleware, bind.
  rewrite (useNuxtApp_bound w Hb). cbn [outcome final events].
  assert (truthy_flag (global (default (mkAddOptions None) options)) = false)
    as -> by (by destruct options).
  reflexivity.
Qed.

Lemma addRouteMiddleware_function f middleware options w :
  nuxtAppBound w = true ->
  addRouteMiddleware (NameFunction f) middleware options w
  = mkRun (Return tt)
      (with_app (fun a =>
         set_global (_middleware_global a ++ [FnMiddleware f]) a) w) [].
Proof.
  intros Hb. unfold addRouteMiddleware, bind.
  rewrite (useNuxtApp_bound w Hb). reflexivity.
Qed.

(** X17. Of two registrations under the same name the later one wins: the
    world is as if only it had been made. Registrations under different
    names do not depend on their order. *)
Theorem addRouteMiddleware_named_twice
    (s1 s2 : string) (m1 m2 : option nat)
    (o1 o2 : option AddRouteMiddlewareOptions) (w : World) :
  nuxtAppBound w = true ->
  opt_global o1 = false ->
  opt_global o2 = false ->
  let first_then_second :=
    final (addRouteMiddleware (NameString s2) m2 o2
             (final (addRouteMiddleware (NameString s1) m1 o1 w))) in
  (s1 = s2 ->
   first_then_second = final (addRouteMiddleware (NameString s2) m2 o2 w))
  /\ (s1 <> s2 ->
      first_then_second
      = final (addRouteMiddleware (NameString s1) m1 o1
                 (final (addRouteMiddleware (NameString s2) m2 o2 w)))).
Proof.
  intros Hb Hg1 Hg2 first_then_second. subst first_then_second.
  rewrite !(addRouteMiddleware_named _ _ _ w) by assumption.
  cbn [final].
  rewrite !addRouteMiddleware_named by assumption. cbn [final].
  unfold with_app, set_named. cbn.
  split.
  - intros ->. do 2 f_equal. apply insert_insert_eq.
  - intros Hne. do 2 f_equal. by apply insert_insert_ne.
Qed.

Lemma addRouteMiddleware_named_twice_witness :
  _middleware_named
    (nuxtApp
       (final (addRouteMiddleware (NameString "auth") (Some 1%nat) None
                 (final (addRouteMiddleware (NameString "auth") (Some 0%nat)
                           None sample_world))))) !! "auth"
  = Some (FnLegacy (FnMiddleware 1)).
Proof.
  rewrite (proj1 (addRouteMiddleware_named_twice "auth" "auth" (Some 0%nat)
                    (Some 1%nat) None None sample_world eq_refl eq_refl
                    eq_refl) eq_refl).
  reflexivity.
Defined.

(** X18. Global registrations pile up in the order of the calls: after
    [addRouteMiddleware(f)] for each function of a list, the global list
    is the former one followed by these functions, in order and as given;
    the named registry and the rest of the world are as they were. *)
Theorem register_globally_appends (fs : list nat) (w : World) :
  nuxtAppBound w = true ->
  register_globally fs w
  = mkRun (Return tt)
      (with_app (fun a =>
         set_global (_middleware_global a ++ (FnMiddleware <$> fs)) a) w) [].
Proof.
  revert w. induction fs as [|f fs IH]; intros w Hb.
  - cbn. unfold ret, with_app, set_global. rewrite app_nil_r.
    by destruct w as [ci bd [] hooks].
  - cbn [register_globally]. unfold bind at 1.
    rewrite (addRouteMiddleware_function f None None w Hb).
    cbn [outcome final events]. rewrite IH by exact Hb.
    cbn [outcome final events]. f_equal.
    unfold with_app, set_global. cbn. by rewrite <- app_assoc.
Qed.

Lemma register_globally_appends_witness :
  _middleware_global (nuxtApp (final (register_globally [2; 0; 1]%nat
                                        sample_world)))
  = [FnMiddleware 2; FnMiddleware 0; FnMiddleware 1].
Proof.
  rewrite (register_globally_appends [2; 0; 1]%nat sample_world eq_refl).
  reflexivity.
Defined.

(** ** The mirror of the route after a navigation *)

Lemma run_hooks_run router r hooks w :
  run_hooks router r hooks w
  = mkRun (Return tt)
      (if existsb (fun p => bool_decide (p.1 = router)) hooks
       then with_app (set_route (Some r)) w else w) [].
Proof.
  revert w. induction hooks as [|[owner h] hooks IH]; intros w;
    [reflexivity|].
  cbn [run_hooks existsb fst]. unfold bind at 1.
  destruct (decide (owner = router)) as [->|Hne].
  - rewrite bool_decide_eq_true_2 by done. destruct h.
    unfold run_hook, update_app, modify. cbn [outcome final events orb].
    rewrite IH. cbn [outcome final events].
    by destruct (existsb _ hooks).
  - rewrite bool_decide_eq_false_2 by done.
    cbn [ret outcome final events orb]. rewrite IH. reflexivity.
Qed.

(** The functions of the module that write to the application keep the
    getter together with the mirror: from an application that starts
    without getter, they never lead to one with the getter and no
    mirror. *)
Lemma getter_has_mirror_kept (w : World) :
  getter_has_mirror w ->
  getter_has_mirror (final (useRoute w))
  /\ (forall name middleware options,
        getter_has_mirror
          (final (addRouteMiddleware name middleware options w)))
  /\ (forall router r, getter_has_mirror (final (run_hooks router r
                                                   (afterEach w) w))).
Proof.
  unfold getter_has_mirror.
  destruct w as [ci bd [flag globals named mirror getter router legacy ssr base]
                   hooks].
  cbn [nuxtApp __route _route]. intros Hinv. split_and!.
  - unfold useRoute, defineProperty__route, bind, get, useNuxtApp. cbn.
    destruct ci as [i|]; cbn; [exact Hinv|].
    destruct bd; cbn; [|exact Hinv].
    destruct mirror as [m|]; cbn; [exact Hinv|].
    destruct getter; cbn; [exact Hinv | by eexists].
  - intros name middleware options.
    unfold addRouteMiddleware, bind, useNuxtApp, update_app, modify. cbn.
    destruct bd; [|exact Hinv].
    destruct name as [s|f]; [destruct (truthy_flag _)|]; exact Hinv.
  - intros rt r. rewrite run_hooks_run. cbn [final afterEach].
    match goal with |- context [existsb ?f hooks] =>
      destruct (existsb f hooks) end; [|exact Hinv].
    by eexists.
Qed.

(** X19. The mirror follows the route. Outside of a component, after the
    first [useRoute] (no mirror and no getter yet) has made the mirror and
    the router has then called its [afterEach] hooks for a navigation to
    route [r], [useRoute] gives [r]: it makes no second mirror and installs
    no second hook. *)
Theorem useRoute_follows_navigation (w : World) (r : Route) :
  currentInstance w = None ->
  nuxtAppBound w = true ->
  _route (nuxtApp w) = None ->
  __route (nuxtApp w) = false ->
  let accessed := final (useRoute w) in
  let navigated :=
    final (fire_afterEach (app_router (nuxtApp w)) r accessed) in
  useRoute navigated = mkRun (Return r) navigated []
  /\ afterEach navigated
     = afterEach w ++ [(app_router (nuxtApp w), AssignToMirror)].
Proof.
  intros Hi Hb Hm Hg accessed navigated. subst navigated accessed.
  rewrite (useRoute_first w Hi Hb Hm Hg). cbn [final].
  unfold fire_afterEach, bind, get. cbn [outcome final events].
  rewrite run_hooks_run. cbn [outcome final events].
  set (mirrored := add_afterEach _ _ _).
  assert (existsb (fun p : Router * RouterHook =>
                     bool_decide (p.1 = app_router (nuxtApp w)))
            (afterEach mirrored) = true) as ->.
  { subst mirrored. unfold add_afterEach. cbn [afterEach].
    rewrite existsb_app. cbn. rewrite bool_decide_eq_true_2 by done.
    by rewrite orb_true_r. }
  split; [|reflexivity].
  by apply useRoute_mirrored.
Qed.

Lemma useRoute_follows_navigation_witness :
  outcome (useRoute
             (final (fire_afterEach (mkRouter 1)
                       (mkRoute "/about" [] "" "/about")
                       (final (useRoute sample_world)))))
  = Return (mkRoute "/about" [] "" "/about").
Proof.
  exact (f_equal outcome
           (proj1 (useRoute_follows_navigation sample_world
                     (mkRoute "/about" [] "" "/about") eq_refl eq_refl
                     eq_refl eq_refl))).
Defined.
